(** * python-ubersmith: the request pipeline and the response wrappers

    A shallow embedding of [ubersmith/api.py], [ubersmith/calls/__init__.py]
    and [ubersmith/index/__init__.py].  Python values are an inductive type,
    exceptions are an error result, and the HTTP exchange is a state monad
    over a world that holds the responses the server is going to give and
    the trace of what the client did (requests sent, seconds slept). *)

From Stdlib Require Import ZArith String Ascii List Bool Lia.
From Stdlib Require Import SpecFloat.
From stdpp Require Import gmap strings list.

Import ListNotations.
Local Open Scope string_scope.
Local Open Scope list_scope.
Local Open Scope Z_scope.

(** ** Python values *)

(** What [json.loads] can return, plus tuples (built by [divmod]).  A
    binary64 float is a [spec_float] of the Standard Library. *)
#[warnings="-register-all"]
Inductive value :=
| VNone
| VBool (b : bool)
| VInt (n : Z)
| VFloat (f : spec_float)
| VStr (s : string)
| VList (xs : list value)
| VTuple (xs : list value)
| VDict (items : list (string * value)).

(** An object a caller can hold: a plain value or an instance of some other
    class (a [dict] subclass, [Decimal], [datetime], ...) given by the name
    of its class and its state. *)
Inductive pyobj :=
| Plain (v : value)
| Instance (cls : string) (state : value).

Inductive pytype :=
| TNoneType | TBool | TInt | TFloat | TStr | TList | TTuple | TDict
| TClass (cls : string).

(** [type(x)]: the exact runtime class, subclasses are not folded into
    their base. *)
Definition type_of (x : pyobj) : pytype :=
  match x with
  | Plain VNone => TNoneType
  | Plain (VBool _) => TBool
  | Plain (VInt _) => TInt
  | Plain (VFloat _) => TFloat
  | Plain (VStr _) => TStr
  | Plain (VList _) => TList
  | Plain (VTuple _) => TTuple
  | Plain (VDict _) => TDict
  | Instance cls _ => TClass cls
  end.

(** [bool(v)] *)
Definition truthy (v : value) : bool :=
  match v with
  | VNone => false
  | VBool b => b
  | VInt n => negb (n =? 0)
  | VFloat (S754_zero _) => false
  | VFloat _ => true
  | VStr s => negb (String.eqb s "")
  | VList xs | VTuple xs => match xs with [] => false | _ => true end
  | VDict items => match items with [] => false | _ => true end
  end.

(** The exact comparison of a float with an int. *)
Definition float_eq_int (f : spec_float) (n : Z) : bool :=
  match f with
  | S754_zero _ => n =? 0
  | S754_finite s m e =>
      let mz := cond_Zopp s (Zpos m) in
      if 0 <=? e then mz * 2 ^ e =? n else mz =? n * 2 ^ (- e)
  | _ => false
  end.

(** [v == n] for an int [n]; [bool] is a subclass of [int]. *)
Definition py_eq_int (v : value) (n : Z) : bool :=
  match v with
  | VBool b => Z.b2z b =? n
  | VInt k => k =? n
  | VFloat f => float_eq_int f n
  | _ => false
  end.

(** [v == s] for a string [s]. *)
Definition py_eq_str (v : value) (s : string) : bool :=
  match v with
  | VStr t => String.eqb t s
  | _ => false
  end.

(** [sub in s] on strings. *)
Fixpoint str_in (sub s : string) : bool :=
  if String.prefix sub s then true
  else match s with
       | EmptyString => false
       | String _ s' => str_in sub s'
       end.

(** ** Exceptions and results *)

Inductive exn :=
| RequestError
| ResponseError (response : value)
| MaintenanceResponse (response : value)
| UpdatingTokenResponse
| ValidationError
| AttributeError
| KeyError
| TypeError
| ValueError
| IndexError
| ZeroDivisionError
| OverflowError
| UnboundLocalError
| NotImplementedError
| TransportError          (* the exchange itself failed *)
| Unmodelled.             (* behaviour outside the modelled fragment *)

Inductive result (A : Type) :=
| Ok (a : A)
| Raise (e : exn).
Arguments Ok {A} a.
Arguments Raise {A} e.

Definition rbind {A B} (r : result A) (k : A -> result B) : result B :=
  match r with
  | Ok a => k a
  | Raise e => Raise e
  end.

Notation "'let?' x ':=' r 'in' k" := (rbind r (fun x => k))
  (at level 10, x name, r at level 100, k at level 200).

(** Lookup in a decoded JSON object. *)
Fixpoint assoc (k : string) (items : list (string * value)) : option value :=
  match items with
  | [] => None
  | (k', v) :: rest => if String.eqb k k' then Some v else assoc k rest
  end.

(** [obj.get(k)]: only a dict has the method. *)
Definition py_get (obj : value) (k : string) : result value :=
  match obj with
  | VDict items => Ok (default VNone (assoc k items))
  | _ => Raise AttributeError
  end.

(** [obj[k]] *)
Definition py_getitem (obj : value) (k : string) : result value :=
  match obj with
  | VDict items =>
      match assoc k items with
      | Some v => Ok v
      | None => Raise KeyError
      end
  | _ => Raise TypeError
  end.

(** ** The transport *)

(** The body of a response: [requests] hands it over as [bytes]; the
    tests of the repository set it to a [str]. *)
Inductive body :=
| Text (s : string)
| Bytes (b : string).

(** A [requests] response: headers (names in lower case), the body, and
    what [response.json()] gives, [None] when the body does not decode. *)
Record http_response := {
  headers : gmap string string;
  content : body;
  body_json : option value
}.

(** The body as an object: a [str], or a [bytes] object given by its
    bytes. *)
Definition body_object (b : body) : pyobj :=
  match b with
  | Text s => Plain (VStr s)
  | Bytes b => Instance "bytes" (VStr b)
  end.

(** [sub in b] for a str [sub]: a str is looked for in a str only. *)
Definition str_in_body (sub : string) (b : body) : result bool :=
  match b with
  | Text s => Ok (str_in sub s)
  | Bytes _ => Raise TypeError
  end.

(** A dict with string keys, in insertion order. *)
Definition py_dict := list (string * value).

Inductive event :=
| EvSend (method : string) (data : option py_dict)
| EvSleep (seconds : Z)
| EvWarn (message : string).

Record world := {
  pending : list http_response;   (* what the server answers, in order *)
  trace : list event              (* what the client has done so far *)
}.

(** State and exceptions: the world survives a raise. *)
Definition M (A : Type) : Type := world -> result A * world.

Definition ret {A} (a : A) : M A := fun w => (Ok a, w).
Definition raise {A} (e : exn) : M A := fun w => (Raise e, w).
Definition bind {A B} (m : M A) (k : A -> M B) : M B :=
  fun w => match m w with
           | (Ok a, w') => k a w'
           | (Raise e, w') => (Raise e, w')
           end.
Definition lift {A} (r : result A) : M A := fun w => (r, w).
Definition log (ev : event) : M unit :=
  fun w => (Ok tt, {| pending := pending w; trace := trace w ++ [ev] |}).

Notation "'let*' x ':=' m 'in' k" := (bind m (fun x => k))
  (at level 10, x name, m at level 100, k at level 200).
Notation "m ';;' k" := (bind m (fun _ => k))
  (at level 100, k at level 200, right associativity).

(** [time.sleep(seconds)] *)
Definition sleep (seconds : Z) : M unit := log (EvSleep seconds).

(** [warnings.warn(message)] *)
Definition warn (message : string) : M unit := log (EvWarn message).

(** ** Response wrappers ([api.py]) *)

Inductive wrapper_class :=
| BaseResponse | DictResponse | IntResponse | FileResponse.

(** [_cleaned] is [None] while the attribute is not set. *)
Record Response := {
  cls : wrapper_class;
  _response : http_response;
  _cleaned : option pyobj
}.

(** [cls(response)] *)
Definition new (c : wrapper_class) (response : http_response) : Response :=
  {| cls := c; _response := response; _cleaned := None |}.

(** [BaseResponse._from_cleaned] (a classmethod) *)
Definition _from_cleaned (c : wrapper_class) (response : Response)
    (cleaned : pyobj) : Response :=
  {| cls := c; _response := _response response; _cleaned := Some cleaned |}.

(** [_json]: [FileResponse] overrides the property. *)
Definition _json (self : Response) : result value :=
  match cls self with
  | FileResponse => Raise NotImplementedError
  | _ => match body_json (_response self) with
         | Some j => Ok j
         | None => Raise ValueError
         end
  end.

(** [_type] *)
Definition _type (self : Response) : option string :=
  headers (_response self) !! "content-type".

(** ** The request handler ([api.py]) *)

Record RequestHandler := {
  base_url : string;
  username : option string;
  password : option string;
  verify : bool;
  METHODS : gmap string string;
  version : string
}.

Definition MAINTENANCE_MESSAGE : string :=
  "We are currently undergoing maintenance, please check back shortly.".

(** [a and b]: the body is looked at only when the header matched. *)
Definition _is_token_response (response : http_response) : result bool :=
  if str_in "text/html" (default "" (headers response !! "content-type"))
  then str_in_body "Updating Token" (content response)
  else Ok false.

(** [s] contains [sub]. *)
Definition contains (s sub : string) : Prop :=
  exists before after, s = (before ++ sub ++ after)%string.

(** The content type says HTML. *)
Definition html (response : http_response) : Prop :=
  exists ct, headers response !! "content-type" = Some ct
             /\ contains ct "text/html".

(** An HTML page whose body is a str that says "Updating Token". *)
Definition token_page (response : http_response) : Prop :=
  html response
  /\ exists s, content response = Text s /\ contains s "Updating Token".

(** The POST: it is recorded, and the server's next answer comes back. *)
Definition _send_request (self : RequestHandler) (method : string)
    (data : option py_dict) : M http_response :=
  log (EvSend method data) ;;
  fun w => match pending w with
           | [] => (Raise TransportError, w)
           | r :: rest => (Ok r, {| pending := rest; trace := trace w |})
           end.

Definition _validate_request_method (self : RequestHandler) (method : string)
    : M unit :=
  match METHODS self !! method with
  | None => raise RequestError
  | Some _ => ret tt
  end.

(** The [for i in range(attempts)] loop of [process_request]; [response] is
    the local variable, unbound before the first iteration. *)
Fixpoint attempt_loop (self : RequestHandler) (method : string)
    (data : option py_dict) (attempts : nat) (range : list nat)
    (response : option http_response) : M http_response :=
  match range with
  | [] =>
      match response with
      | Some r => ret r
      | None => raise UnboundLocalError
      end
  | i :: range' =>
      let* response := _send_request self method data in
      let* token := lift (_is_token_response response) in
      if token then
        if (i <? attempts - 1)%nat then
          sleep 2 ;;
          attempt_loop self method data attempts range' (Some response)
        else raise UpdatingTokenResponse
      else ret response
  end.

(** The test for an error in the JSON response, after the loop. *)
Definition check_json_error (response : http_response) (resp : Response)
    : result Response :=
  if decide (headers response !! "content-type" = Some "application/json") then
    let? j := _json resp in
    let? status := py_get j "status" in
    if negb (truthy status) then
      let? j1 := _json resp in
      let? error_code := py_get j1 "error_code" in
      let? j2 := _json resp in
      let? error_message := py_get j2 "error_message" in
      if forallb id [py_eq_int error_code 1;
                     py_eq_str error_message MAINTENANCE_MESSAGE] then
        let? j3 := _json resp in
        Raise (MaintenanceResponse j3)
      else
        let? j3 := _json resp in
        Raise (ResponseError j3)
    else Ok resp
  else Ok resp.

Definition process_request (self : RequestHandler) (method : string)
    (data : option py_dict) : M Response :=
  _validate_request_method self method ;;
  let attempts := 3%nat in
  let* response :=
    attempt_loop self method data attempts (seq 0 attempts) None in
  let resp := new BaseResponse response in
  lift (check_json_error response resp).

(** ** Reading a wrapper's data ([api.py])

    [ObjDict] comes from [ubersmith.utils], which is not among the sources:
    it is a parameter, the object the call [ObjDict(data)] evaluates to. *)
Section Data.
Variable ObjDict : pyobj -> result pyobj.

(** [_data]: [FileResponse] overrides the property with the body. *)
Definition _data (self : Response) : result pyobj :=
  match cls self with
  | FileResponse => Ok (body_object (content (_response self)))
  | _ =>
      let? data :=
        match _cleaned self with
        | Some cleaned => Ok cleaned
        | None =>
            let? j := _json self in
            let? d := py_getitem j "data" in
            Ok (Plain d)
        end in
      ObjDict data
  end.
End Data.

(** ** Calls ([calls/__init__.py]) *)

(** An entry of [required_fields]: a field name, or a collection of names
    of which one is enough. *)
Inductive field :=
| Flat (name : string)
| Group (members : list string).

Record BaseCall := {
  method : string;
  required_fields : list field;
  cleaner : option (pyobj -> result pyobj);
  request_data : py_dict;
  request_handler : RequestHandler;
  response : option Response
}.

Definition set_response (self : BaseCall) (r : Response) : BaseCall :=
  {| method := method self;
     required_fields := required_fields self;
     cleaner := cleaner self;
     request_data := request_data self;
     request_handler := request_handler self;
     response := Some r |}.

(** [k in request_data] *)
Definition has_key (data : py_dict) (k : string) : bool :=
  existsb (String.eqb k) (map fst data).

(** Membership of a required field in [set(self.request_data)]: the keys
    are strings, so a collection is never one of them. *)
Definition supplied (data : py_dict) (f : field) : bool :=
  match f with
  | Flat name => has_key data name
  | Group _ => false
  end.

(** The body of the [for field in ...] loop of [validate]: whatever the
    first field is, the iteration returns. *)
Definition validate_loop (fields : list field) (data : py_dict) : bool :=
  match fields with
  | [] => true
  | Flat _ :: _ => false
  | Group members :: _ => existsb (has_key data) members
  end.

Section Calls.
Variable ObjDict : pyobj -> result pyobj.
(** The order in which a set built from these elements is iterated; it
    depends on the hashes of the elements. *)
Variable set_iter : list field -> list field.

Definition validate (self : BaseCall) : bool :=
  validate_loop
    (set_iter (List.filter (fun f => negb (supplied (request_data self) f))
                           (required_fields self)))
    (request_data self).

(** [BaseCall.process_request] *)
Definition call_process_request (self : BaseCall) : M BaseCall :=
  let* r := process_request (request_handler self) (method self)
                            (Some (request_data self)) in
  ret (set_response self r).

(** [render]: the call to [clean] is commented out in the source. *)
Definition render (self : BaseCall) : M (option Response) :=
  if negb (validate self) then raise ValidationError
  else
    let* self := call_process_request self in
    ret (response self).

(** [copy.deepcopy]: values are trees, the copy is the same tree. *)
Definition deepcopy (x : pyobj) : pyobj := x.

Definition clean (self : BaseCall) : result BaseCall :=
  match response self with
  | None => Raise AttributeError
  | Some resp =>
      if decide (_type resp = Some "application/json") then
        let? d := _data ObjDict resp in
        let cleaned := deepcopy d in
        let? cleaned :=
          match cleaner self with
          | Some f => f cleaned
          | None => Ok cleaned
          end in
        let typed_response :=
          match type_of cleaned with
          | TDict => DictResponse
          | TInt => IntResponse
          | _ => BaseResponse
          end in
        Ok (set_response self (_from_cleaned typed_response resp cleaned))
      else
        Ok (set_response self (new FileResponse (_response resp)))
  end.
End Calls.

(** ** Python's int and float operations *)

(** [float(n)] for an int: the nearest binary64, ties to even. *)
Definition float_of_int (n : Z) : result spec_float :=
  match binary_normalize 53 1024 n 0 false with
  | S754_infinity _ => Raise OverflowError
  | f => Ok f
  end.

(** An int as an exact, not yet rounded, mantissa. *)
Definition exact_int (n : Z) : spec_float :=
  match n with
  | Z0 => S754_zero false
  | Zpos p => S754_finite false p 0
  | Zneg p => S754_finite true p 0
  end.

(** [a / b] on ints: the quotient, rounded once. *)
Definition int_truediv (a b : Z) : result value :=
  if b =? 0 then Raise ZeroDivisionError
  else match SFdiv 53 1024 (exact_int a) (exact_int b) with
       | S754_infinity _ => Raise OverflowError
       | q => Ok (VFloat q)
       end.

(** [x / y] on floats. *)
Definition float_truediv (x y : spec_float) : result value :=
  match y with
  | S754_zero _ => Raise ZeroDivisionError
  | _ => Ok (VFloat (SFdiv 53 1024 x y))
  end.

Inductive binop :=
| Add | Sub | Mul | TrueDiv | FloorDiv | Mod | Pow
| LShift | RShift | And | Or | Xor.



Section IntOps.
(** [x ** y] on floats is the C library's [pow]: a parameter. *)
Variable float_pow : spec_float -> spec_float -> result value.

(** [a op b] for ints [a] and [b]. *)
Definition int_binop (o : binop) (a b : Z) : result value :=
  match o with
  | Add => Ok (VInt (a + b))
  | Sub => Ok (VInt (a - b))
  | Mul => Ok (VInt (a * b))
  | TrueDiv => int_truediv a b
  | FloorDiv => if b =? 0 then Raise ZeroDivisionError else Ok (VInt (a / b))
  | Mod => if b =? 0 then Raise ZeroDivisionError else Ok (VInt (a mod b))
  | Pow =>
      if 0 <=? b then Ok (VInt (a ^ b))
      else
        let? x := float_of_int a in
        let? y := float_of_int b in
        float_pow x y
  | LShift => if b <? 0 then Raise ValueError else Ok (VInt (Z.shiftl a b))
  | RShift => if b <? 0 then Raise ValueError else Ok (VInt (Z.shiftr a b))
  | And => Ok (VInt (Z.land a b))
  | Or => Ok (VInt (Z.lor a b))
  | Xor => Ok (VInt (Z.lxor a b))
  end.

End IntOps.



(** *** Numbers: an int or a float on the other side *)

Inductive num :=
| NInt (n : Z)
| NFloat (f : spec_float).

(** The float an arithmetic operator works on: an int is converted. *)
Definition num_float (x : num) : result spec_float :=
  match x with
  | NInt n => float_of_int n
  | NFloat f => Ok f
  end.

Section NumOps.
Variable float_pow : spec_float -> spec_float -> result value.
(** [divmod(x, y)] on floats rests on the C library's [fmod]: a parameter;
    [x // y] is its first component and [x % y] its second. *)
Variable float_divmod :
  spec_float -> spec_float -> result (spec_float * spec_float).

(** [x op y] on floats; the bitwise operators do not take a float. *)
Definition float_binop (o : binop) (x y : spec_float) : result value :=
  match o with
  | Add => Ok (VFloat (SFadd 53 1024 x y))
  | Sub => Ok (VFloat (SFsub 53 1024 x y))
  | Mul => Ok (VFloat (SFmul 53 1024 x y))
  | TrueDiv => float_truediv x y
  | FloorDiv => let? qr := float_divmod x y in Ok (VFloat (fst qr))
  | Mod => let? qr := float_divmod x y in Ok (VFloat (snd qr))
  | Pow => float_pow x y
  | LShift | RShift | And | Or | Xor => Raise TypeError
  end.

(** [a op b]: int arithmetic on two ints, float arithmetic as soon as one
    side is a float. *)
Definition num_binop (o : binop) (a b : num) : result value :=
  match a, b with
  | NInt x, NInt y => int_binop float_pow o x y
  | _, _ =>
      match o with
      | LShift | RShift | And | Or | Xor => Raise TypeError
      | _ =>
          let? x := num_float a in
          let? y := num_float b in
          float_binop o x y
      end
  end.

End NumOps.





(** An int operand of an operator: [bool] counts as its int value; other
    left operands are outside the model. *)
Definition operand (x : pyobj) : result Z :=
  match x with
  | Plain (VInt n) => Ok n
  | Plain (VBool b) => Ok (Z.b2z b)
  | _ => Raise Unmodelled
  end.

(** [float(x)] *)
Definition py_float (x : pyobj) : result spec_float :=
  match x with
  | Plain (VInt n) => float_of_int n
  | Plain (VBool b) => float_of_int (Z.b2z b)
  | Plain (VFloat f) => Ok f
  | Plain VNone | Plain (VList _) | Plain (VTuple _) | Plain (VDict _) =>
      Raise TypeError
  | _ => Raise Unmodelled
  end.

(** ** [IntResponse] ([api.py]); the other operand is an int or a float. *)
Module IntResponseMethods.
Section Methods.
Variable ObjDict : pyobj -> result pyobj.
Variable float_pow : spec_float -> spec_float -> result value.
Variable float_divmod :
  spec_float -> spec_float -> result (spec_float * spec_float).

Definition conjugate (self : Response) : result pyobj := _data ObjDict self.

Definition __int__ (self : Response) : result pyobj := _data ObjDict self.
Definition __trunc__ := __int__.

(** [int(self)]: [__int__] has to hand back an int. *)
Definition int_ (self : Response) : result Z :=
  let? d := __int__ self in
  match d with
  | Plain (VInt n) => Ok n
  | Plain (VBool b) => Ok (Z.b2z b)
  | _ => Raise TypeError
  end.


Definition __float__ (self : Response) : result spec_float :=
  let? d := _data ObjDict self in py_float d.

(** [float(self)] *)
Definition float_ (self : Response) : result spec_float := __float__ self.







Definition __add__ (self : Response) (other : num) : result value :=
  let? n := int_ self in
  num_binop float_pow float_divmod Add (NInt n) other.
Definition __radd__ := __add__.

Definition __sub__ (self : Response) (other : num) : result value :=
  let? n := int_ self in
  num_binop float_pow float_divmod Sub (NInt n) other.

Definition __rsub__ (self : Response) (other : num) : result value :=
  let? n := int_ self in
  num_binop float_pow float_divmod Sub other (NInt n).

Definition __mul__ (self : Response) (other : num) : result value :=
  let? n := int_ self in
  num_binop float_pow float_divmod Mul (NInt n) other.
Definition __rmul__ := __mul__.

Definition __floordiv__ (self : Response) (other : num) : result value :=
  let? n := int_ self in
  num_binop float_pow float_divmod FloorDiv (NInt n) other.

Definition __rfloordiv__ (self : Response) (other : num) : result value :=
  let? n := int_ self in
  num_binop float_pow float_divmod FloorDiv other (NInt n).

(** [float(self) / other]: the wrapped int is a float before the division
    starts. *)
Definition __truediv__ (self : Response) (other : num) : result value :=
  let? x := float_ self in
  num_binop float_pow float_divmod TrueDiv (NFloat x) other.

Definition __rtruediv__ (self : Response) (other : num) : result value :=
  let? x := float_ self in
  num_binop float_pow float_divmod TrueDiv other (NFloat x).

Definition __mod__ (self : Response) (other : num) : result value :=
  let? n := int_ self in
  num_binop float_pow float_divmod Mod (NInt n) other.

Definition __rmod__ (self : Response) (other : num) : result value :=
  let? n := int_ self in
  num_binop float_pow float_divmod Mod other (NInt n).

Definition __pow__ (self : Response) (other : num) : result value :=
  let? n := int_ self in
  num_binop float_pow float_divmod Pow (NInt n) other.

Definition __rpow__ (self : Response) (other : num) : result value :=
  let? n := int_ self in
  num_binop float_pow float_divmod Pow other (NInt n).




Definition __and__ (self : Response) (other : num) : result value :=
  let? d := _data ObjDict self in
  let? n := operand d in
  num_binop float_pow float_divmod And (NInt n) other.
Definition __rand__ := __and__.

Definition __or__ (self : Response) (other : num) : result value :=
  let? d := _data ObjDict self in
  let? n := operand d in
  num_binop float_pow float_divmod Or (NInt n) other.
Definition __ror__ := __or__.

Definition __xor__ (self : Response) (other : num) : result value :=
  let? d := _data ObjDict self in
  let? n := operand d in
  num_binop float_pow float_divmod Xor (NInt n) other.
Definition __rxor__ := __xor__.

Definition __lshift__ (self : Response) (other : num) : result value :=
  let? d := _data ObjDict self in
  let? n := operand d in
  num_binop float_pow float_divmod LShift (NInt n) other.

Definition __rlshift__ (self : Response) (other : num) : result value :=
  let? d := _data ObjDict self in
  let? n := operand d in
  num_binop float_pow float_divmod LShift other (NInt n).

Definition __rshift__ (self : Response) (other : num) : result value :=
  let? d := _data ObjDict self in
  let? n := operand d in
  num_binop float_pow float_divmod RShift (NInt n) other.

Definition __rrshift__ (self : Response) (other : num) : result value :=
  let? d := _data ObjDict self in
  let? n := operand d in
  num_binop float_pow float_divmod RShift other (NInt n).




(** [self op other] *)
Definition binary (o : binop) (self : Response) (other : num) : result value :=
  match o with
  | Add => __add__ self other
  | Sub => __sub__ self other
  | Mul => __mul__ self other
  | TrueDiv => __truediv__ self other
  | FloorDiv => __floordiv__ self other
  | Mod => __mod__ self other
  | Pow => __pow__ self other
  | LShift => __lshift__ self other
  | RShift => __rshift__ self other
  | And => __and__ self other
  | Or => __or__ self other
  | Xor => __xor__ self other
  end.

(** [other op self] *)
Definition reflected (o : binop) (self : Response) (other : num)
    : result value :=
  match o with
  | Add => __radd__ self other
  | Sub => __rsub__ self other
  | Mul => __rmul__ self other
  | TrueDiv => __rtruediv__ self other
  | FloorDiv => __rfloordiv__ self other
  | Mod => __rmod__ self other
  | Pow => __rpow__ self other
  | LShift => __rlshift__ self other
  | RShift => __rrshift__ self other
  | And => __rand__ self other
  | Or => __ror__ self other
  | Xor => __rxor__ self other
  end.



End Methods.
End IntResponseMethods.

(** ** [DictResponse] ([api.py])

    The write operations act on the object [self._data] evaluates to, so
    this part keeps dict objects in a heap and the wrapper holds the address
    of its cleaned mapping.  [ObjDict] is again a parameter: the address its
    call evaluates to, and the heap after the call. *)
Module DictResponseMethods.
Definition heap := gmap nat py_dict.
Definition H (A : Type) : Type := heap -> result A * heap.

Definition hret {A} (a : A) : H A := fun h => (Ok a, h).
Definition hraise {A} (e : exn) : H A := fun h => (Raise e, h).
Definition hbind {A B} (m : H A) (k : A -> H B) : H B :=
  fun h => match m h with
           | (Ok a, h') => k a h'
           | (Raise e, h') => (Raise e, h')
           end.

Notation "'let!' x ':=' m 'in' k" := (hbind m (fun x => k))
  (at level 10, x name, m at level 100, k at level 200).

(** The dict object at an address. *)
Definition read (l : nat) : H py_dict :=
  fun h => match h !! l with
           | Some d => (Ok d, h)
           | None => (Raise Unmodelled, h)
           end.

Definition write (l : nat) (d : py_dict) : H unit :=
  fun h => (Ok tt, <[l := d]> h).

(** *** The operations of a plain dict *)

Fixpoint set_item (k : string) (v : value) (d : py_dict) : py_dict :=
  match d with
  | [] => [(k, v)]
  | (k', v') :: rest =>
      if String.eqb k k' then (k, v) :: rest
      else (k', v') :: set_item k v rest
  end.


Definition dict_keys (l : nat) : H (list string) :=
  let! d := read l in hret (map fst d).

Definition dict_values (l : nat) : H (list value) :=
  let! d := read l in hret (map snd d).

Definition dict_items (l : nat) : H py_dict := read l.

Definition dict_get (l : nat) (key : string) (default_ : value) : H value :=
  let! d := read l in hret (default default_ (assoc key d)).

Definition dict_getitem (l : nat) (key : string) : H value :=
  let! d := read l in
  match assoc key d with
  | Some v => hret v
  | None => hraise KeyError
  end.

Definition dict_setitem (l : nat) (key : string) (v : value) : H unit :=
  let! d := read l in write l (set_item key v d).

Definition dict_update (l : nat) (other : py_dict) : H unit :=
  let! d := read l in
  write l (fold_left (fun acc kv => set_item (fst kv) (snd kv) acc) other d).

(** [d.setdefault(key, value)] hands back the value now stored. *)
Definition dict_setdefault (l : nat) (key : string) (v : value) : H value :=
  let! d := read l in
  match assoc key d with
  | Some old => hret old
  | None => let! _ := write l (set_item key v d) in hret v
  end.


Definition dict_popitem (l : nat) : H (string * value) :=
  let! d := read l in
  match rev d with
  | [] => hraise KeyError
  | kv :: before => let! _ := write l (rev before) in hret kv
  end.

Definition dict_clear (l : nat) : H unit := write l [].

Definition dict_len (l : nat) : H Z :=
  let! d := read l in hret (Z.of_nat (length d)).


(** *** The wrapper *)

Record DictWrapper := { cleaned : nat }.

Section Methods.
Variable ObjDict : nat -> H nat.

Definition data (self : DictWrapper) : H nat := ObjDict (cleaned self).

Definition keys (self : DictWrapper) : H (list string) :=
  let! d := data self in dict_keys d.

Definition values (self : DictWrapper) : H (list value) :=
  let! d := data self in dict_values d.

Definition items (self : DictWrapper) : H py_dict :=
  let! d := data self in dict_items d.

Definition get (self : DictWrapper) (key : string) (default_ : value)
    : H value :=
  let! d := data self in dict_get d key default_.

(** No [return] in [update], [setdefault], [clear] and [__setitem__]:
    the call hands back [None]. *)
Definition update (self : DictWrapper) (other : py_dict) : H value :=
  let! d := data self in
  let! _ := dict_update d other in hret VNone.

Definition setdefault (self : DictWrapper) (key : string) (v : value)
    : H value :=
  let! d := data self in
  let! _ := dict_setdefault d key v in hret VNone.


Definition popitem (self : DictWrapper) : H (string * value) :=
  let! d := data self in dict_popitem d.

Definition clear (self : DictWrapper) : H value :=
  let! d := data self in
  let! _ := dict_clear d in hret VNone.

Definition __setitem__ (self : DictWrapper) (key : string) (v : value)
    : H value :=
  let! d := data self in
  let! _ := dict_setitem d key v in hret VNone.

Definition __iter__ (self : DictWrapper) : H (list string) :=
  let! d := data self in dict_keys d.

Definition __getitem__ (self : DictWrapper) (key : string) : H value :=
  let! d := data self in dict_getitem d key.

Definition __len__ (self : DictWrapper) : H Z :=
  let! d := data self in dict_len d.

End Methods.

(** Two candidates for [ObjDict]: it hands back the object it was given,
    or it builds a new dict with the same items. *)
Definition ObjDict_same (l : nat) : H nat := hret l.

Definition fresh (h : heap) : nat := S (foldr Nat.max 0%nat (elements (dom h))).

Definition ObjDict_copy (l : nat) : H nat :=
  let! d := read l in
  fun h => let l' := fresh h in (Ok l', <[l' := d]> h).
End DictResponseMethods.

(** ** [MethodIndex] ([index/__init__.py]) *)
Module MethodIndexMethods.
(** *** String and tuple helpers of Python *)

Definition endswith (s suffix : string) : bool :=
  (String.length suffix <=? String.length s)%nat
  && String.eqb
       (substring (String.length s - String.length suffix)
                  (String.length suffix) s)
       suffix.

(** [s.rpartition(sep)[0]], [None] when [sep] does not occur. *)
Fixpoint before_last (sep : ascii) (s : string) : option string :=
  match s with
  | EmptyString => None
  | String a s' =>
      match before_last sep s' with
      | Some h => Some (String a h)
      | None => if Ascii.eqb a sep then Some EmptyString else None
      end
  end.

Definition rpartition_head (sep : ascii) (s : string) : string :=
  default EmptyString (before_last sep s).

(** [s.split(sep)] *)
Fixpoint split (sep : ascii) (s : string) : list string :=
  match s with
  | EmptyString => [EmptyString]
  | String a s' =>
      if Ascii.eqb a sep then EmptyString :: split sep s'
      else match split sep s' with
           | h :: t => String a h :: t
           | [] => [String a EmptyString]
           end
  end.

Definition is_digit (a : ascii) : bool :=
  (48 <=? nat_of_ascii a)%nat && (nat_of_ascii a <=? 57)%nat.

(** What [int()] skips around a number.  Characters are code points below
    256: the ASCII whitespace (tab to carriage return, and the space) and
    the two other spaces of that range, NEL and the no-break space.  The
    separators 0x1c to 0x1f are not skipped. *)
Definition is_space (a : ascii) : bool :=
  let n := nat_of_ascii a in
  ((9 <=? n)%nat && (n <=? 13)%nat) || (n =? 32)%nat
  || (n =? 133)%nat || (n =? 160)%nat.

Fixpoint lstrip (s : string) : string :=
  match s with
  | String a s' => if is_space a then lstrip s' else s
  | EmptyString => s
  end.

Fixpoint string_rev (s : string) : string :=
  match s with
  | EmptyString => EmptyString
  | String a s' => (string_rev s' ++ String a EmptyString)%string
  end.

Definition strip (s : string) : string :=
  string_rev (lstrip (string_rev (lstrip s))).

(** Decimal digits, single underscores between digits allowed. *)
Fixpoint digits (s : string) (acc : Z) (after_digit : bool) : option Z :=
  match s with
  | EmptyString => if after_digit then Some acc else None
  | String a s' =>
      if is_digit a then
        digits s' (10 * acc + Z.of_nat (nat_of_ascii a - 48)) true
      else if Ascii.eqb a "_"%char && after_digit then digits s' acc false
      else None
  end.

(** The number of digits [int()] accepts in a decimal string, as the
    interpreter sets it ([sys.int_info.default_max_str_digits]); the code
    never changes it. *)
Definition max_str_digits : nat := 4300.

Fixpoint count_digits (s : string) : nat :=
  match s with
  | EmptyString => 0
  | String a s' => (if is_digit a then 1 else 0) + count_digits s'
  end.

(** [int(s)] *)
Definition py_int (s : string) : result Z :=
  let body_sign :=
    match strip s with
    | String "-"%char s' => (s', -1)
    | String "+"%char s' => (s', 1)
    | s' => (s', 1)
    end in
  match digits (fst body_sign) 0 false with
  | Some n =>
      if (max_str_digits <? count_digits (fst body_sign))%nat
      then Raise ValueError
      else Ok (snd body_sign * n)
  | None => Raise ValueError
  end.

(** [map] of a function that may raise, left to right. *)
Fixpoint map_result {A B} (f : A -> result B) (l : list A) : result (list B) :=
  match l with
  | [] => Ok []
  | x :: l' =>
      let? y := f x in
      let? ys := map_result f l' in
      Ok (y :: ys)
  end.

(** [a < b] on tuples of ints. *)
Fixpoint tuple_ltb (a b : list Z) : bool :=
  match a, b with
  | [], [] => false
  | [], _ :: _ => true
  | _ :: _, [] => false
  | x :: a', y :: b' =>
      if x <? y then true else if y <? x then false else tuple_ltb a' b'
  end.

(** [sorted(..., reverse=True)] on elements paired with their keys: the
    sort is stable, equal keys stay in their original order. *)
Fixpoint insert_desc (x : list Z * string) (l : list (list Z * string))
    : list (list Z * string) :=
  match l with
  | [] => [x]
  | y :: l' =>
      if tuple_ltb (fst x) (fst y) then y :: insert_desc x l' else x :: l
  end.

Definition sorted_desc (l : list (list Z * string)) : list (list Z * string) :=
  foldr insert_desc [] l.

(** *** The class *)

(** The files of the index directory: what [os.listdir] returns and what
    [json.load] reads from a file. *)
Record directory := {
  listdir : list string;
  load : string -> result value
}.

(** Attributes are [None] until [__init__] assigns them. *)
Record MethodIndex := {
  handler : RequestHandler;
  _wanted_index_name : option string;
  index_name : option string;
  _index_data : option value
}.

Definition handler_version (h : RequestHandler) : string := version h.

Definition _format_name (version : string) : string :=
  (version ++ ".json")%string.

(** The [version] property: it reads [self.index_name]. *)
Definition version (self : MethodIndex) : result string :=
  match index_name self with
  | None => Raise AttributeError
  | Some name =>
      if String.eqb name EmptyString then Ok "Unknown"%string
      else Ok (rpartition_head "."%char name)
  end.

Definition _get_available_indexes (dir : directory) : list string :=
  List.filter (fun f => endswith f ".json") (listdir dir).

(** The sort key of [_get_latest_index]. *)
Definition version_key (x : string) : result (list Z) :=
  map_result py_int (split "."%char (rpartition_head "."%char x)).

Definition _get_latest_index (dir : directory) : result string :=
  let names := _get_available_indexes dir in
  let? keys := map_result version_key names in
  match sorted_desc (combine keys names) with
  | [] => Raise IndexError
  | (_, name) :: _ => Ok name
  end.

Definition _get_index_name (self : MethodIndex) (dir : directory) : M string :=
  let* wanted :=
    lift (match _wanted_index_name self with
          | Some name => Ok name
          | None => Raise AttributeError
          end) in
  if existsb (String.eqb wanted) (_get_available_indexes dir) then ret wanted
  else
    let* v := lift (version self) in
    warn ("The requested version of the API is not available. "
          ++ "Using the latest version instead: " ++ v)%string ;;
    lift (_get_latest_index dir).

Definition _get_index_data (self : MethodIndex) (dir : directory)
    : result value :=
  match index_name self with
  | Some name => load dir name
  | None => Raise AttributeError
  end.

Definition __init__ (handler : RequestHandler) (dir : directory)
    : M MethodIndex :=
  let self :=
    {| handler := handler;
       _wanted_index_name := Some (_format_name (handler_version handler));
       index_name := None;
       _index_data := None |} in
  let* name := _get_index_name self dir in
  let self :=
    {| handler := handler;
       _wanted_index_name := _wanted_index_name self;
       index_name := Some name;
       _index_data := None |} in
  let* index_data := lift (_get_index_data self dir) in
  ret {| handler := handler;
         _wanted_index_name := _wanted_index_name self;
         index_name := index_name self;
         _index_data := Some index_data |}.
End MethodIndexMethods.


(** ** Sample data, for the instances further down *)

Definition sample_handler : RequestHandler :=
  {| base_url := "https://billing.example.com/api/2.0/";
     username := Some "api";
     password := Some "secret";
     verify := true;
     METHODS := {[ "uber.method_list" := "List Available API Methods";
                   "client.get" := "Get a Client's Details" ]};
     version := "4.6.2" |}.

(** The token page with a str body, as a test double hands it over, and
    with the bytes body [requests] gives. *)
Definition token_response : http_response :=
  {| headers := {[ "content-type" := "text/html; charset=utf-8" ]};
     content := Text "<html><body>Updating Token</body></html>";
     body_json := None |}.

Definition token_response_bytes : http_response :=
  {| headers := {[ "content-type" := "text/html; charset=utf-8" ]};
     content := Bytes "<html><body>Updating Token</body></html>";
     body_json := None |}.

Definition json_response (content_type : string) (body : value)
    : http_response :=
  {| headers := {[ "content-type" := content_type ]};
     content := Bytes "";
     body_json := Some body |}.

Definition maintenance_body : py_dict :=
  [("status", VBool false);
   ("error_code", VInt 1);
   ("error_message",
    VStr "We are currently undergoing maintenance, please check back shortly.");
   ("data", VStr "")].

Definition failure_body : py_dict :=
  [("status", VBool false);
   ("error_code", VInt 3);
   ("error_message", VStr "Invalid login or password.");
   ("data", VStr "")].


(** A candidate for [ObjDict], used in the instances: the argument comes
    back as it is. *)
Definition ObjDict_unchanged (data : pyobj) : result pyobj := Ok data.

#[global] Instance field_eq_dec : EqDecision field.
Proof. solve_decision. Defined.

(** A candidate for the iteration order of a set: the order in which the
    elements were put in. *)
Definition insertion_order (fields : list field) : list field :=
  remove_dups fields.

(** What [required_fields] asks of the request data, field by field. *)
Definition satisfied (data : py_dict) (f : field) : bool :=
  match f with
  | Flat name => has_key data name
  | Group members => existsb (has_key data) members
  end.

Definition client_body : py_dict :=
  [("status", VBool true);
   ("error_code", VNone);
   ("error_message", VStr "");
   ("data", VDict [("clientid", VStr "50"); ("balance", VStr "187559.67")])].

Definition count_body : py_dict :=
  [("status", VBool true);
   ("error_code", VNone);
   ("error_message", VStr "");
   ("data", VInt 42)].

Definition sample_call (fields : list field) (data : py_dict)
    (resp : option Response) : BaseCall :=
  {| method := "client.get";
     required_fields := fields;
     cleaner := None;
     request_data := data;
     request_handler := sample_handler;
     response := resp |}.


(** Another candidate: the reverse of it. *)
Definition reverse_order (fields : list field) : list field :=
  rev (remove_dups fields).


(** A stand-in for the C library's [pow], for the instances. *)
Definition float_divmod_unmodelled (x y : spec_float)
    : result (spec_float * spec_float) :=
  Raise Unmodelled.

Definition float_pow_unmodelled (x y : spec_float) : result value :=
  Raise Unmodelled.

(** An [IntResponse] built by [_from_cleaned] around an int. *)
Definition int_response (n : Z) : Response :=
  _from_cleaned IntResponse
    (new BaseResponse (json_response "application/json" (VDict count_body)))
    (Plain (VInt n)).


Definition sample_directory : MethodIndexMethods.directory :=
  {| MethodIndexMethods.listdir :=
       ["__init__.py"; "4.5.3.json"; "4.10.1.json"; "__pycache__"];
     MethodIndexMethods.load := fun _ => Ok (VDict []) |}.


(** ** Measures on traces *)

Definition is_send (ev : event) : bool :=
  match ev with EvSend _ _ => true | _ => false end.

Definition is_sleep (ev : event) : bool :=
  match ev with EvSleep _ => true | _ => false end.

(** How many requests went out, how many pauses were made. *)
Definition sends (tr : list event) : nat := length (List.filter is_send tr).
Definition sleeps (tr : list event) : nat := length (List.filter is_sleep tr).


(** ** Generic calls ([calls/__init__.py]) *)
Module GenericCalls.

(** [s.split(sep, 1)] *)
Fixpoint split_once (sep : ascii) (s : string) : list string :=
  match s with
  | EmptyString => [EmptyString]
  | String a s' =>
      if Ascii.eqb a sep then [EmptyString; s']
      else match split_once sep s' with
           | h :: t => String a h :: t
           | [] => [String a EmptyString]
           end
  end.

(** [sep.join(parts)] *)
Fixpoint join (sep : string) (parts : list string) : string :=
  match parts with
  | [] => EmptyString
  | [p] => p
  | p :: rest => (p ++ sep ++ join sep rest)%string
  end.

(** A subclass of [BaseCall]: its class attributes. *)
Record call_class := {
  class_method : string;
  class_required_fields : list field;
  class_cleaner : option (pyobj -> result pyobj)
}.

(** The class statement in [_get_call_class] sets [method] only; the other
    two attributes are those of [BaseCall]. *)
Definition GenericBaseCall (method : string) : call_class :=
  {| class_method := method;
     class_required_fields := [];
     class_cleaner := None |}.

(** The unpacking of the split asks for exactly two parts. *)
Definition _get_call_class (method : string) : result call_class :=
  match split_once "."%char method with
  | [call_base; call_name] =>
      Ok (GenericBaseCall (join "." [call_base; call_name]))
  | _ => Raise ValueError
  end.

(** [get_default_request_handler], given the module's global: [None] is the
    plain [Exception] raised when no default is set. *)
Definition get_default_request_handler
    (_DEFAULT_REQUEST_HANDLER : option RequestHandler)
    : option RequestHandler :=
  _DEFAULT_REQUEST_HANDLER.

(** [BaseCall.__init__], for an instance of the class: an empty or absent
    [request_data] becomes [{}], an absent handler the default one. *)
Definition __init__ (c : call_class) (request_data : option py_dict)
    (request_handler _DEFAULT_REQUEST_HANDLER : option RequestHandler)
    : option BaseCall :=
  let data := match request_data with
              | Some (kv :: rest) => kv :: rest
              | _ => []
              end in
  match match request_handler with
        | Some h => Some h
        | None => get_default_request_handler _DEFAULT_REQUEST_HANDLER
        end with
  | Some h =>
      Some {| method := class_method c;
              required_fields := class_required_fields c;
              cleaner := class_cleaner c;
              request_data := data;
              request_handler := h;
              response := None |}
  | None => None
  end.

Record GenericCall := {
  call_class_of : call_class;
  bound_handler : option RequestHandler
}.

(** [GenericCall.handler]: a new call bound to the handler. *)
Definition handler (self : GenericCall) (request_handler : RequestHandler)
    : GenericCall :=
  {| call_class_of := call_class_of self;
     bound_handler := Some request_handler |}.

Section Call.
Variable set_iter : list field -> list field.

(** [GenericCall.__call__] with its keyword arguments: instantiate the
    class, then [render]. *)
Definition __call__ (self : GenericCall) (kwargs : py_dict)
    (_DEFAULT_REQUEST_HANDLER : option RequestHandler)
    : option (M (option Response)) :=
  match __init__ (call_class_of self) (Some kwargs) (bound_handler self)
                 _DEFAULT_REQUEST_HANDLER with
  | Some call => Some (render set_iter call)
  | None => None
  end.
End Call.
End GenericCalls.


Definition unversioned_directory : MethodIndexMethods.directory :=
  {| MethodIndexMethods.listdir := ["4.5.3.json"; "latest.json"];
     MethodIndexMethods.load := fun _ => Ok (VDict []) |}.

Definition exact_directory : MethodIndexMethods.directory :=
  {| MethodIndexMethods.listdir := ["4.5.3.json"; "4.6.2.json"; "4.10.1.json"];
     MethodIndexMethods.load :=
       fun name => Ok (VDict [("file", VStr name)]) |}.


(** ** Queries on a [MethodIndex] ([index/__init__.py]) *)
Module MethodIndexQueries.

(** [obj.get(k, dflt)]: only a dict has the method. *)
Definition py_get_default (obj : value) (k : string) (dflt : value)
    : result value :=
  match obj with
  | VDict items => Ok (default dflt (assoc k items))
  | _ => Raise AttributeError
  end.

(** [list(obj.keys())] *)
Definition py_keys (obj : value) : result value :=
  match obj with
  | VDict items => Ok (VList (map (fun kv => VStr (fst kv)) items))
  | _ => Raise AttributeError
  end.

(** [s.partition(sep)[0]]: the text before the first [sep], all of [s]
    when [sep] does not occur. *)
Fixpoint partition_head (sep : ascii) (s : string) : string :=
  match s with
  | EmptyString => EmptyString
  | String a s' =>
      if Ascii.eqb a sep then EmptyString
      else String a (partition_head sep s')
  end.

(** [self._index_data], an attribute [__init__] assigns last. *)
Definition index_data (self : MethodIndexMethods.MethodIndex)
    : result value :=
  match MethodIndexMethods._index_data self with
  | Some data => Ok data
  | None => Raise AttributeError
  end.

(** [get_methods]: an empty or absent [module] gives the whole index. *)
Definition get_methods (self : MethodIndexMethods.MethodIndex)
    (module : option string) (as_list : bool) : result value :=
  match module with
  | Some (String a m) =>
      let? data := index_data self in
      let? methods := py_get_default data (String a m) (VDict []) in
      if as_list then py_keys methods else Ok methods
  | _ => index_data self
  end.

Definition get_method (self : MethodIndexMethods.MethodIndex)
    (method : string) : result value :=
  let module := partition_head "."%char method in
  let? data := index_data self in
  let? methods := py_get_default data module (VDict []) in
  py_get_default methods method (VDict []).

(** [get_default_index], given the module's global. *)
Definition get_default_index
    (_DEFAULT_INDEX : option MethodIndexMethods.MethodIndex)
    : result MethodIndexMethods.MethodIndex :=
  match _DEFAULT_INDEX with
  | Some index => Ok index
  | None => Raise ValueError
  end.
End MethodIndexQueries.

(** ** [generate_generic_calls] ([calls/__init__.py]) *)
Module GeneratedCalls.

(** A [GenericCall] with the two attributes [generate_generic_calls] sets
    on it. *)
Record named_call := {
  generic_call : GenericCalls.GenericCall;
  __name__ : string;
  __doc__ : value
}.

(** What a name of the namespace is bound to: a generated call or another
    object ([__all__] is a list of names). *)
Inductive binding :=
| Call (c : named_call)
| Object (v : value).

(** The namespace [ns], a dict in insertion order. *)
Definition namespace := list (string * binding).

Fixpoint ns_get (k : string) (ns : namespace) : option binding :=
  match ns with
  | [] => None
  | (k', b) :: rest => if String.eqb k k' then Some b else ns_get k rest
  end.

(** [ns[k] = b] *)
Fixpoint ns_set (k : string) (b : binding) (ns : namespace) : namespace :=
  match ns with
  | [] => [(k, b)]
  | (k', b') :: rest =>
      if String.eqb k k' then (k, b) :: rest
      else (k', b') :: ns_set k b rest
  end.

(** [x == v] for a string [x]. *)
Definition is_str (x : string) (v : value) : bool :=
  match v with
  | VStr s => String.eqb s x
  | _ => false
  end.

(** [x in obj] for a string [x]: membership in a list or tuple, substring
    of a string, key of a dict; the other objects are not iterable. *)
Definition py_in (x : string) (obj : binding) : result bool :=
  match obj with
  | Object (VList xs) | Object (VTuple xs) => Ok (existsb (is_str x) xs)
  | Object (VStr s) => Ok (str_in x s)
  | Object (VDict d) => Ok (has_key d x)
  | _ => Raise TypeError
  end.

(** [obj.append(x)]: only a list has the method. *)
Definition py_append (obj : binding) (x : string) : result binding :=
  match obj with
  | Object (VList xs) => Ok (Object (VList (xs ++ [VStr x])))
  | _ => Raise AttributeError
  end.

(** One round of the loop of [generate_generic_calls]; the namespace comes
    back as the round left it, also when it raises. *)
Definition loop_body (method : string) (method_data : value) (ns : namespace)
    : result unit * namespace :=
  match MethodIndexMethods.split "."%char method with
  | [module; call_name] =>
      match (let? target := py_getitem method_data "method" in
             let? call_class :=
               match target with
               | VStr m => GenericCalls._get_call_class m
               | _ => Raise AttributeError
               end in
             let? doc :=
               MethodIndexQueries.py_get_default method_data "description"
                 (VStr "") in
             Ok (call_class, doc)) with
      | Raise e => (Raise e, ns)
      | Ok (call_class, doc) =>
          let generic_call :=
            {| generic_call :=
                 {| GenericCalls.call_class_of := call_class;
                    GenericCalls.bound_handler := None |};
               __name__ := call_name;
               __doc__ := doc |} in
          let ns := ns_set call_name (Call generic_call) ns in
          match ns_get "__all__" ns with
          | None => (Ok tt, ns)
          | Some all =>
              match py_in call_name all with
              | Raise e => (Raise e, ns)
              | Ok true => (Ok tt, ns)
              | Ok false =>
                  match py_append all call_name with
                  | Ok all' => (Ok tt, ns_set "__all__" all' ns)
                  | Raise e => (Raise e, ns)
                  end
              end
          end
      end
  | _ => (Raise ValueError, ns)
  end.

Fixpoint loop (items : py_dict) (ns : namespace) : result unit * namespace :=
  match items with
  | [] => (Ok tt, ns)
  | (method, method_data) :: rest =>
      match loop_body method method_data ns with
      | (Ok _, ns') => loop rest ns'
      | (Raise e, ns') => (Raise e, ns')
      end
  end.

Definition generate_generic_calls (base : string) (ns : namespace)
    (index _DEFAULT_INDEX : option MethodIndexMethods.MethodIndex)
    : result unit * namespace :=
  match (let? index :=
           match index with
           | Some index => Ok index
           | None => MethodIndexQueries.get_default_index _DEFAULT_INDEX
           end in
         let? methods :=
           MethodIndexQueries.get_methods index (Some base) false in
         match methods with
         | VDict items => Ok items
         | _ => Raise AttributeError
         end) with
  | Ok items => loop items ns
  | Raise e => (Raise e, ns)
  end.
End GeneratedCalls.


(** An entry of the index for module [base], the way [generate] files it:
    the key is [base.name], the details are a dict whose [method] is a
    dotted method name. *)
Definition index_entry (base : string) (entry : string * value) : Prop :=
  exists name d target,
    entry = ((base ++ "." ++ name)%string, VDict d)
    /\ ~ contains name "." /\ name <> "__all__"%string
    /\ assoc "method" d = Some (VStr target) /\ contains target ".".

(** The call function an entry stands for: unbound, for the class of
    [target], named [name], documented by the entry's description. *)
Definition call_function (name : string) (d : py_dict) (target : string)
    : GeneratedCalls.binding :=
  GeneratedCalls.Call
    {| GeneratedCalls.generic_call :=
         {| GenericCalls.call_class_of := GenericCalls.GenericBaseCall target;
            GenericCalls.bound_handler := None |};
       GeneratedCalls.__name__ := name;
       GeneratedCalls.__doc__ := default (VStr "") (assoc "description" d) |}.

(** [__all__] is absent from the namespace or a list. *)
Definition all_is_list (ns : GeneratedCalls.namespace) : Prop :=
  GeneratedCalls.ns_get "__all__" ns = None
  \/ exists xs,
       GeneratedCalls.ns_get "__all__" ns
       = Some (GeneratedCalls.Object (VList xs)).

Definition sample_index (data : value) : MethodIndexMethods.MethodIndex :=
  {| MethodIndexMethods.handler := sample_handler;
     MethodIndexMethods._wanted_index_name := Some "4.6.2.json"%string;
     MethodIndexMethods.index_name := Some "4.6.2.json"%string;
     MethodIndexMethods._index_data := Some data |}.

Definition client_methods : py_dict :=
  [("client.get",
    VDict [("method", VStr "client.get");
           ("description", VStr "Get a Client's Details")]);
   ("client.list",
    VDict [("method", VStr "client.list")])].


(** * Properties *)

(** ** Strings *)

Lemma prefix_app (a b : string) :
  String.prefix a (a ++ b)%string = true.
Proof.
  induction a as [|c a IH]; simpl.
  - now destruct b.
  - destruct (ascii_dec c c) as [_|n]; [exact IH | now elim n].
Qed.

Lemma prefix_inv (a s : string) :
  String.prefix a s = true -> exists b, s = (a ++ b)%string.
Proof.
  revert s. induction a as [|c a IH]; intros s Hp.
  - exists s. reflexivity.
  - destruct s as [|c' s]; simpl in Hp; [discriminate|].
    destruct (ascii_dec c c') as [->|_]; [|discriminate].
    destruct (IH s Hp) as [b ->]. exists b. reflexivity.
Qed.

Lemma str_in_prefix (sub s : string) :
  String.prefix sub s = true -> str_in sub s = true.
Proof. intros Hp. destruct s; cbn [str_in]; now rewrite Hp. Qed.

Lemma str_in_contains (sub s : string) :
  str_in sub s = true <-> contains s sub.
Proof.
  split.
  - induction s as [|c s IH]; cbn [str_in].
    + destruct (String.prefix sub "") eqn:Hp; [intros _|discriminate].
      destruct (prefix_inv _ _ Hp) as [b Hb]. exists "", b. exact Hb.
    + destruct (String.prefix sub (String c s)) eqn:Hp; intros Hin.
      * destruct (prefix_inv _ _ Hp) as [b Hb]. exists "", b. exact Hb.
      * destruct (IH Hin) as (a & b & ->). exists (String c a), b. reflexivity.
  - intros (a & b & ->). induction a as [|c a IH].
    + change ("" ++ sub ++ b)%string with (sub ++ b)%string.
      apply str_in_prefix, prefix_app.
    + change (String c a ++ sub ++ b)%string
        with (String c (a ++ sub ++ b)%string).
      cbn [str_in]. rewrite IH.
      now destruct (String.prefix sub (String c (a ++ sub ++ b)%string)).
Qed.

Lemma html_spec (response : http_response) :
  str_in "text/html" (default "" (headers response !! "content-type")) = true
  <-> html response.
Proof.
  unfold html. rewrite str_in_contains. split.
  - intros Hct. destruct (headers response !! "content-type") as [ct|] eqn:E.
    + exists ct. split; [reflexivity | exact Hct].
    + destruct Hct as (a & b & Hab). destruct a; discriminate Hab.
  - now intros (ct & -> & Hct).
Qed.

Lemma not_html (response : http_response) :
  ~ html response ->
  str_in "text/html" (default "" (headers response !! "content-type")) = false.
Proof.
  intros Hn. destruct (str_in _ _) eqn:E; [|reflexivity].
  apply html_spec in E. contradiction.
Qed.

Lemma _is_token_response_spec (response : http_response) :
  _is_token_response response = Ok true <-> token_page response.
Proof.
  unfold _is_token_response, token_page. split.
  - destruct (str_in "text/html" _) eqn:Hct; [|discriminate].
    apply html_spec in Hct.
    destruct (content response) as [s|b]; cbn [str_in_body]; [|discriminate].
    intros [= Hs]. apply str_in_contains in Hs. eauto.
  - intros [Hct (s & -> & Hs)]. apply html_spec in Hct. rewrite Hct.
    apply str_in_contains in Hs. cbn [str_in_body]. now rewrite Hs.
Qed.

(** A bytes body under an HTML content type: the test itself fails. *)
Lemma _is_token_response_bytes (response : http_response) :
  _is_token_response response = Raise TypeError
  <-> html response /\ exists b, content response = Bytes b.
Proof.
  unfold _is_token_response. split.
  - destruct (str_in "text/html" _) eqn:Hct; [|discriminate].
    apply html_spec in Hct.
    destruct (content response) as [s|b]; cbn [str_in_body]; [discriminate|].
    eauto.
  - intros [Hct (b & ->)]. apply html_spec in Hct. now rewrite Hct.
Qed.

(** No HTML content type: not a token page, whatever the body is. *)
Lemma _is_token_response_not_html (response : http_response) :
  ~ html response -> _is_token_response response = Ok false.
Proof.
  intros Hn. unfold _is_token_response. now rewrite not_html.
Qed.

Lemma _is_token_response_error (response : http_response) e :
  _is_token_response response = Raise e -> e = TypeError.
Proof.
  unfold _is_token_response. destruct (str_in "text/html" _); [|discriminate].
  destruct (content response); cbn [str_in_body]; congruence.
Qed.

(** ** The retry loop *)

Lemma _send_request_next self method data r rest tr :
  _send_request self method data {| pending := r :: rest; trace := tr |}
  = (Ok r, {| pending := rest; trace := tr ++ [EvSend method data] |}).
Proof. reflexivity. Qed.

(** A token page before the last attempt: sleep two seconds, go on. *)
Lemma attempt_loop_retry self method data attempts i range last r rest tr :
  (i <? attempts - 1)%nat = true ->
  _is_token_response r = Ok true ->
  attempt_loop self method data attempts (i :: range) last
    {| pending := r :: rest; trace := tr |}
  = attempt_loop self method data attempts range (Some r)
      {| pending := rest; trace := (tr ++ [EvSend method data]) ++ [EvSleep 2] |}.
Proof.
  intros Hi Htok. cbn [attempt_loop]. unfold bind at 1.
  rewrite _send_request_next. unfold bind at 1, lift.
  rewrite Htok, Hi. reflexivity.
Qed.

(** A token page at the last attempt: give up, without sleeping. *)
Lemma attempt_loop_give_up self method data attempts i range last r rest tr :
  (i <? attempts - 1)%nat = false ->
  _is_token_response r = Ok true ->
  attempt_loop self method data attempts (i :: range) last
    {| pending := r :: rest; trace := tr |}
  = (Raise UpdatingTokenResponse,
     {| pending := rest; trace := tr ++ [EvSend method data] |}).
Proof.
  intros Hi Htok. cbn [attempt_loop]. unfold bind at 1.
  rewrite _send_request_next. unfold bind at 1, lift.
  rewrite Htok, Hi. reflexivity.
Qed.

(** Anything else: the loop is left at once. *)
Lemma attempt_loop_break self method data attempts i range last r rest tr :
  _is_token_response r = Ok false ->
  attempt_loop self method data attempts (i :: range) last
    {| pending := r :: rest; trace := tr |}
  = (Ok r, {| pending := rest; trace := tr ++ [EvSend method data] |}).
Proof.
  intros Htok. cbn [attempt_loop]. unfold bind at 1.
  rewrite _send_request_next. unfold bind at 1, lift.
  rewrite Htok. reflexivity.
Qed.

(** The token test fails: its exception leaves the loop, nothing else is
    sent and nothing is slept. *)
Lemma attempt_loop_raise self method data attempts i range last r rest tr e :
  _is_token_response r = Raise e ->
  attempt_loop self method data attempts (i :: range) last
    {| pending := r :: rest; trace := tr |}
  = (Raise e, {| pending := rest; trace := tr ++ [EvSend method data] |}).
Proof.
  intros Htok. cbn [attempt_loop]. unfold bind at 1.
  rewrite _send_request_next. unfold bind at 1, lift.
  rewrite Htok. reflexivity.
Qed.

Lemma process_request_valid self method data w :
  is_Some (METHODS self !! method) ->
  process_request self method data w
  = match attempt_loop self method data 3 (seq 0 3) None w with
    | (Ok r, w') => (check_json_error r (new BaseResponse r), w')
    | (Raise e, w') => (Raise e, w')
    end.
Proof.
  intros [d Hd]. unfold process_request, _validate_request_method.
  rewrite Hd. unfold bind, ret, lift. reflexivity.
Qed.

Lemma process_request_invalid self method data w :
  METHODS self !! method = None ->
  process_request self method data w = (Raise RequestError, w).
Proof.
  intros Hd. unfold process_request, _validate_request_method.
  rewrite Hd. reflexivity.
Qed.

Lemma attempt_loop_trace_extends self method data attempts range last w :
  exists later,
    trace (snd (attempt_loop self method data attempts range last w))
    = trace w ++ later.
Proof.
  revert last w. induction range as [|i range IH]; intros last [p tr].
  - exists []. rewrite app_nil_r. now destruct last.
  - destruct p as [|r rest].
    + exists [EvSend method data]. reflexivity.
    + destruct (_is_token_response r) as [[|]|e] eqn:Htok.
      * destruct (i <? attempts - 1)%nat eqn:Hi.
        -- rewrite attempt_loop_retry by assumption.
           edestruct IH as [later ->]. cbn [trace].
           rewrite <- !app_assoc. eexists. reflexivity.
        -- rewrite attempt_loop_give_up by assumption. eexists. reflexivity.
      * rewrite attempt_loop_break by assumption. eexists. reflexivity.
      * rewrite (attempt_loop_raise _ _ _ _ _ _ _ _ _ _ _ Htok).
        eexists. reflexivity.
Qed.

Lemma attempt_loop_sends self method data attempts i range last w :
  exists later,
    trace (snd (attempt_loop self method data attempts (i :: range) last w))
    = trace w ++ EvSend method data :: later.
Proof.
  destruct w as [p tr]. destruct p as [|r rest].
  - exists []. reflexivity.
  - destruct (_is_token_response r) as [[|]|e] eqn:Htok.
    + destruct (i <? attempts - 1)%nat eqn:Hi.
      * rewrite attempt_loop_retry by assumption.
        edestruct attempt_loop_trace_extends as [later ->]. cbn [trace].
        rewrite <- !app_assoc. eexists. reflexivity.
      * rewrite attempt_loop_give_up by assumption. exists []. reflexivity.
    + rewrite attempt_loop_break by assumption. exists []. reflexivity.
    + rewrite (attempt_loop_raise _ _ _ _ _ _ _ _ _ _ _ Htok).
      exists []. reflexivity.
Qed.

(** ** The request handler *)

(** With str bodies, as test doubles hand them over, the retry schedule is
    the intended one.  Three token pages in a row: [UpdatingTokenResponse]
    after exactly three sends, with a pause of two seconds after the first
    and after the second send and none after the third.  Fewer than three
    token pages followed by a response the token test lets through: that
    response ends the loop, it is the last send, and the answers after it
    stay unread. *)
Lemma retry_schedule_str_body self method data rest tr :
  is_Some (METHODS self !! method) ->
  (forall r1 r2 r3,
      token_page r1 -> token_page r2 -> token_page r3 ->
      process_request self method data
        {| pending := r1 :: r2 :: r3 :: rest; trace := tr |}
      = (Raise UpdatingTokenResponse,
         {| pending := rest;
            trace := tr ++ [EvSend method data; EvSleep 2;
                            EvSend method data; EvSleep 2;
                            EvSend method data] |}))
  /\ (forall tokens r,
         Forall token_page tokens -> (length tokens < 3)%nat ->
         _is_token_response r = Ok false ->
         process_request self method data
           {| pending := tokens ++ r :: rest; trace := tr |}
         = (check_json_error r (new BaseResponse r),
            {| pending := rest;
               trace := tr ++ concat (map (fun _ => [EvSend method data;
                                                     EvSleep 2]) tokens)
                           ++ [EvSend method data] |})).
Proof.
  intros Hvalid. split.
  - intros r1 r2 r3 H1 H2 H3.
    apply _is_token_response_spec in H1, H2, H3.
    rewrite process_request_valid by assumption. cbn [seq].
    rewrite attempt_loop_retry by (assumption || reflexivity).
    rewrite attempt_loop_retry by (assumption || reflexivity).
    rewrite attempt_loop_give_up by (assumption || reflexivity).
    rewrite <- !app_assoc. reflexivity.
  - intros tokens r Htok Hlen Hr.
    rewrite process_request_valid by assumption. cbn [seq].
    destruct tokens as [|t1 [|t2 [|t3 tokens]]];
      [| | |cbn [length] in Hlen; lia].
    + cbn [app map concat]. rewrite attempt_loop_break by assumption.
      reflexivity.
    + apply Forall_cons in Htok as [H1 _].
      apply _is_token_response_spec in H1. cbn [app map concat].
      rewrite attempt_loop_retry by (assumption || reflexivity).
      rewrite attempt_loop_break by assumption.
      rewrite <- !app_assoc. reflexivity.
    + apply Forall_cons in Htok as [H1 Htok].
      apply Forall_cons in Htok as [H2 _].
      apply _is_token_response_spec in H1, H2. cbn [app map concat].
      rewrite attempt_loop_retry by (assumption || reflexivity).
      rewrite attempt_loop_retry by (assumption || reflexivity).
      rewrite attempt_loop_break by assumption.
      rewrite <- !app_assoc. reflexivity.
Qed.

(** C1.  The body [requests] hands over is a bytes object, and the token
    test looks for a str in it: on every response whose content type says
    HTML the test raises [TypeError].  So the first such response ends
    [process_request] with [TypeError] after one send: no pause, no second
    attempt, no [UpdatingTokenResponse], whatever the body says and
    whatever the server would answer next. *)
Theorem process_request_token_page_TypeError self method data r rest tr :
  is_Some (METHODS self !! method) ->
  html r ->
  (exists b, content r = Bytes b) ->
  process_request self method data {| pending := r :: rest; trace := tr |}
  = (Raise TypeError,
     {| pending := rest; trace := tr ++ [EvSend method data] |}).
Proof.
  intros Hvalid Hhtml Hbytes.
  assert (Htok : _is_token_response r = Raise TypeError)
    by now apply _is_token_response_bytes.
  rewrite process_request_valid by assumption. cbn [seq].
  now rewrite (attempt_loop_raise _ _ _ _ _ _ _ _ _ _ _ Htok).
Qed.

(** C8.  A method that is not in [METHODS] is refused with [RequestError]
    and the world is untouched: nothing was sent, nothing was slept.  A
    method in [METHODS] passes the validation and the request goes out. *)
Theorem process_request_validates_method self method data w :
  match METHODS self !! method with
  | None => process_request self method data w = (Raise RequestError, w)
  | Some _ =>
      _validate_request_method self method w = (Ok tt, w)
      /\ exists later,
          trace (snd (process_request self method data w))
          = trace w ++ EvSend method data :: later
  end.
Proof.
  destruct (METHODS self !! method) as [d|] eqn:Hd.
  - split.
    + unfold _validate_request_method. rewrite Hd. reflexivity.
    + rewrite process_request_valid by (rewrite Hd; eauto). cbn [seq].
      destruct (attempt_loop_sends self method data 3 0 [1; 2]%nat None w)
        as [later Hl].
      exists later. rewrite <- Hl.
      now destruct (attempt_loop self method data 3 [0; 1; 2]%nat None w)
        as [[r|e] w'].
  - now apply process_request_invalid.
Qed.

Lemma sample_method_valid :
  is_Some (METHODS sample_handler !! "client.get").
Proof. exists "Get a Client's Details". vm_compute. reflexivity. Defined.

Lemma token_response_is_token_page : token_page token_response.
Proof. apply _is_token_response_spec. vm_compute. reflexivity. Defined.

Lemma token_response_bytes_is_html : html token_response_bytes.
Proof. apply html_spec. vm_compute. reflexivity. Defined.

Lemma process_request_token_page_TypeError_witness :
  process_request sample_handler "client.get" None
    {| pending := [token_response_bytes; token_response_bytes;
                   token_response_bytes];
       trace := [] |}
  = (Raise TypeError,
     {| pending := [token_response_bytes; token_response_bytes];
        trace := [EvSend "client.get" None] |}).
Proof.
  apply (process_request_token_page_TypeError sample_handler "client.get"
           None token_response_bytes
           [token_response_bytes; token_response_bytes] []
           sample_method_valid token_response_bytes_is_html).
  eexists. reflexivity.
Defined.

(** What the JSON check does with a decoded object. *)
Lemma check_json_error_object r items :
  headers r !! "content-type" = Some "application/json" ->
  body_json r = Some (VDict items) ->
  check_json_error r (new BaseResponse r)
  = if truthy (default VNone (assoc "status" items)) then
      Ok (new BaseResponse r)
    else if py_eq_int (default VNone (assoc "error_code" items)) 1
            && py_eq_str (default VNone (assoc "error_message" items))
                 MAINTENANCE_MESSAGE
         then Raise (MaintenanceResponse (VDict items))
         else Raise (ResponseError (VDict items)).
Proof.
  intros Hct Hbody. unfold check_json_error.
  destruct (decide _) as [_|Hn]; [|contradiction].
  unfold _json. cbn [new cls _response]. rewrite Hbody.
  cbn [rbind py_get forallb id].
  destruct (truthy _); [reflexivity|]. cbn [negb].
  rewrite andb_true_r. now destruct (_ && _).
Qed.

(** Without the exact content type there is no JSON check. *)
Lemma check_json_error_other r :
  headers r !! "content-type" <> Some "application/json" ->
  check_json_error r (new BaseResponse r) = Ok (new BaseResponse r).
Proof.
  intros Hct. unfold check_json_error.
  destruct (decide _) as [He|_]; [contradiction|reflexivity].
Qed.

Lemma process_request_terminal self method data w w' r :
  is_Some (METHODS self !! method) ->
  attempt_loop self method data 3 (seq 0 3) None w = (Ok r, w') ->
  process_request self method data w
  = (check_json_error r (new BaseResponse r), w').
Proof.
  intros Hvalid Hloop. rewrite process_request_valid by assumption.
  now rewrite Hloop.
Qed.

(** C2.  The response that ends the loop has the JSON content type and its
    decoded object has a falsy [status]: [process_request] raises
    [MaintenanceResponse] exactly when [error_code == 1] and
    [error_message] is the maintenance sentence, and [ResponseError] in
    every other case; both carry the decoded body. *)
Theorem process_request_classifies_error self method data w w' r items :
  is_Some (METHODS self !! method) ->
  attempt_loop self method data 3 (seq 0 3) None w = (Ok r, w') ->
  headers r !! "content-type" = Some "application/json" ->
  body_json r = Some (VDict items) ->
  truthy (default VNone (assoc "status" items)) = false ->
  let maintenance :=
    py_eq_int (default VNone (assoc "error_code" items)) 1
    && py_eq_str (default VNone (assoc "error_message" items))
         "We are currently undergoing maintenance, please check back shortly."
  in
  (process_request self method data w
   = (Raise (MaintenanceResponse (VDict items)), w') <-> maintenance = true)
  /\ (maintenance = false ->
      process_request self method data w
      = (Raise (ResponseError (VDict items)), w')).
Proof.
  intros Hvalid Hloop Hct Hbody Hstatus maintenance.
  rewrite (process_request_terminal _ _ _ _ _ _ Hvalid Hloop).
  rewrite (check_json_error_object _ _ Hct Hbody), Hstatus.
  change (py_eq_int _ 1 && py_eq_str _ MAINTENANCE_MESSAGE) with maintenance.
  destruct maintenance; split; try split; intros; congruence.
Qed.

Lemma process_request_classifies_error_witness :
  process_request sample_handler "client.get" None
    {| pending := [json_response "application/json" (VDict maintenance_body)];
       trace := [] |}
  = (Raise (MaintenanceResponse (VDict maintenance_body)),
     {| pending := []; trace := [EvSend "client.get" None] |})
  /\ process_request sample_handler "client.get" None
       {| pending := [json_response "application/json" (VDict failure_body)];
          trace := [] |}
     = (Raise (ResponseError (VDict failure_body)),
        {| pending := []; trace := [EvSend "client.get" None] |}).
Proof.
  split.
  - apply (proj1 (process_request_classifies_error sample_handler "client.get"
                    None
                    {| pending := [json_response "application/json"
                                     (VDict maintenance_body)];
                       trace := [] |}
                    {| pending := []; trace := [EvSend "client.get" None] |}
                    (json_response "application/json" (VDict maintenance_body))
                    maintenance_body sample_method_valid
                    eq_refl eq_refl eq_refl eq_refl)).
    reflexivity.
  - apply (proj2 (process_request_classifies_error sample_handler "client.get"
                    None
                    {| pending := [json_response "application/json"
                                     (VDict failure_body)];
                       trace := [] |}
                    {| pending := []; trace := [EvSend "client.get" None] |}
                    (json_response "application/json" (VDict failure_body))
                    failure_body sample_method_valid
                    eq_refl eq_refl eq_refl eq_refl)).
    reflexivity.
Defined.

(** C10.  The JSON error check runs only when the content type of the
    response that ends the loop is the string [application/json] itself.
    With any other content type, among them [application/json] followed by
    parameters, the raw response is returned whatever its body says; so a
    [ResponseError] or [MaintenanceResponse] tells that the header was
    exact.  The token check, in contrast, looks for [text/html] anywhere in
    the content type: without it the answer is no whatever the body is,
    with it the body decides, a str body by holding the marker and a bytes
    body by raising [TypeError]. *)
Theorem json_check_needs_exact_content_type self method data w w' r :
  is_Some (METHODS self !! method) ->
  attempt_loop self method data 3 (seq 0 3) None w = (Ok r, w') ->
  (headers r !! "content-type" <> Some "application/json" ->
   process_request self method data w = (Ok (new BaseResponse r), w'))
  /\ (forall body,
         process_request self method data w = (Raise (ResponseError body), w')
         \/ process_request self method data w
            = (Raise (MaintenanceResponse body), w') ->
         headers r !! "content-type" = Some "application/json")
  /\ (forall response,
         _is_token_response response = Ok true
         <-> (exists ct, headers response !! "content-type" = Some ct
                         /\ contains ct "text/html")
             /\ exists s, content response = Text s
                          /\ contains s "Updating Token")
  /\ (forall response,
         ~ (exists ct, headers response !! "content-type" = Some ct
                       /\ contains ct "text/html") ->
         _is_token_response response = Ok false)
  /\ (forall response,
         _is_token_response response = Raise TypeError
         <-> (exists ct, headers response !! "content-type" = Some ct
                         /\ contains ct "text/html")
             /\ exists b, content response = Bytes b)
  /\ (forall r0 rest tr,
         headers r0 !! "content-type" <> Some "application/json" ->
         ~ (exists ct, headers r0 !! "content-type" = Some ct
                       /\ contains ct "text/html") ->
         process_request self method data
           {| pending := r0 :: rest; trace := tr |}
         = (Ok (new BaseResponse r0),
            {| pending := rest; trace := tr ++ [EvSend method data] |})).
Proof.
  intros Hvalid Hloop.
  rewrite (process_request_terminal _ _ _ _ _ _ Hvalid Hloop).
  repeat apply conj.
  - intros Hct. now rewrite check_json_error_other.
  - intros body Hraise.
    destruct (decide (headers r !! "content-type" = Some "application/json"))
      as [He|Hn]; [exact He|].
    rewrite check_json_error_other in Hraise by assumption.
    destruct Hraise as [H|H]; discriminate H.
  - intros response. apply _is_token_response_spec.
  - intros response. apply _is_token_response_not_html.
  - intros response. apply _is_token_response_bytes.
  - intros r0 rest tr Hct Hhtml.
    rewrite process_request_valid by assumption. cbn [seq].
    rewrite attempt_loop_break by now apply _is_token_response_not_html.
    now rewrite check_json_error_other.
Qed.

Lemma json_check_needs_exact_content_type_witness :
  process_request sample_handler "client.get" None
    {| pending := [json_response "application/json; charset=utf-8"
                     (VDict failure_body)];
       trace := [] |}
  = (Ok (new BaseResponse (json_response "application/json; charset=utf-8"
                             (VDict failure_body))),
     {| pending := []; trace := [EvSend "client.get" None] |}).
Proof.
  apply (proj1 (json_check_needs_exact_content_type sample_handler
                  "client.get" None
                  {| pending := [json_response
                                   "application/json; charset=utf-8"
                                   (VDict failure_body)];
                     trace := [] |}
                  {| pending := []; trace := [EvSend "client.get" None] |}
                  (json_response "application/json; charset=utf-8"
                     (VDict failure_body))
                  sample_method_valid eq_refl)).
  vm_compute. discriminate.
Defined.

(** ** Calls *)

Lemma has_key_In (data : py_dict) (k : string) :
  has_key data k = true <-> In k (map fst data).
Proof.
  unfold has_key. rewrite existsb_exists. split.
  - intros (k' & Hin & He). apply String.eqb_eq in He. now subst.
  - intros Hin. exists k. split; [exact Hin | apply String.eqb_refl].
Qed.

(** [render] refuses before anything is sent. *)
Lemma render_invalid set_iter self w :
  validate set_iter self = false ->
  render set_iter self w = (Raise ValidationError, w).
Proof. intros Hv. unfold render. rewrite Hv. reflexivity. Qed.

Lemma render_valid set_iter self w :
  validate set_iter self = true ->
  render set_iter self w
  = match process_request (request_handler self) (method self)
            (Some (request_data self)) w with
    | (Ok r, w') => (Ok (Some r), w')
    | (Raise e, w') => (Raise e, w')
    end.
Proof.
  intros Hv. unfold render, call_process_request. rewrite Hv.
  cbn [negb]. unfold bind, ret.
  now destruct (process_request _ _ _ w) as [[r|e] w'].
Qed.

(** When every required field is satisfied, [validate] says so, in
    whatever order the set is iterated. *)
Lemma validate_complete set_iter self :
  (forall l f, In f (set_iter l) -> In f l) ->
  (forall f, In f (required_fields self) ->
             satisfied (request_data self) f = true) ->
  validate set_iter self = true.
Proof.
  intros Hsub Hsat. unfold validate.
  destruct (set_iter _) as [|f fields] eqn:E; [reflexivity|].
  assert (Hin : In f (f :: fields)) by (left; reflexivity).
  rewrite <- E in Hin. apply Hsub, filter_In in Hin as [Hreq Hmiss].
  specialize (Hsat f Hreq).
  destruct f as [name|members]; cbn [validate_loop satisfied supplied] in *.
  - rewrite Hsat in Hmiss. discriminate.
  - exact Hsat.
Qed.

(** What [process_request] returns is a [BaseResponse] with nothing
    cleaned. *)
Lemma process_request_raw self method data w r w' :
  process_request self method data w = (Ok r, w') ->
  cls r = BaseResponse /\ _cleaned r = None.
Proof.
  unfold process_request, bind, lift.
  destruct (_validate_request_method self method w) as [[[]|e] w1];
    [|discriminate].
  destruct (attempt_loop _ _ _ _ _ _ w1) as [[raw|e] w2]; [|discriminate].
  unfold check_json_error.
  destruct (decide _); [|now intros [= <- _]].
  repeat match goal with
         | |- context [rbind ?x _] => destruct x; cbn [rbind]; try discriminate
         | |- context [if ?b then _ else _] => destruct b; try discriminate
         end; now intros [= <- _].
Qed.

Lemma render_raw set_iter self w r w' :
  render set_iter self w = (Ok r, w') ->
  exists raw, r = Some raw /\ cls raw = BaseResponse /\ _cleaned raw = None.
Proof.
  unfold render. destruct (validate set_iter self); [|discriminate].
  cbn [negb]. unfold call_process_request, bind, ret.
  destruct (process_request _ _ _ w) as [[raw|e] w1] eqn:E; [|discriminate].
  intros [= <- _]. exists raw. split; [reflexivity|].
  exact (process_request_raw _ _ _ _ _ _ E).
Qed.

(** C3.  A call that passes validation and whose request succeeds with a
    JSON mapping: [render] validates, sends the request once and hands back
    the raw [BaseResponse], nothing cleaned, while [clean] on that very
    response would have produced a [DictResponse] over the mapping. *)
Theorem render_returns_raw_response :
  let call := sample_call [Flat "client_id"] [("client_id", VInt 50)] None in
  let raw := new BaseResponse
               (json_response "application/json" (VDict client_body)) in
  validate insertion_order call = true
  /\ render insertion_order call
       {| pending := [json_response "application/json" (VDict client_body)];
          trace := [] |}
     = (Ok (Some raw),
        {| pending := [];
           trace := [EvSend "client.get" (Some [("client_id", VInt 50)])] |})
  /\ _cleaned raw = None
  /\ exists cleaned_call typed,
      clean ObjDict_unchanged (set_response call raw) = Ok cleaned_call
      /\ response cleaned_call = Some typed
      /\ cls typed = DictResponse
      /\ _cleaned typed
         = Some (Plain (VDict [("clientid", VStr "50");
                               ("balance", VStr "187559.67")])).
Proof.
  cbv zeta. split; [reflexivity|]. split; [reflexivity|].
  split; [reflexivity|]. eexists. eexists. split; [reflexivity|].
  split; [reflexivity|]. split; reflexivity.
Qed.

(** C4.  Required: one of [client_id], [email], and [invoice_id]; supplied:
    [client_id] only.  When the set of missing fields is iterated with the
    group first, [validate] returns [True] on the group alone, although
    [invoice_id] is required and absent, and [render] sends the request;
    iterated the other way round, [validate] returns [False] and [render]
    raises [ValidationError] with nothing sent. *)
Theorem validate_returns_on_first_field :
  let call := sample_call [Group ["client_id"; "email"]; Flat "invoice_id"]
                          [("client_id", VInt 50)] None in
  let w := {| pending := [json_response "application/json" (VDict client_body)];
              trace := [] |} in
  In (Flat "invoice_id") (required_fields call)
  /\ satisfied (request_data call) (Flat "invoice_id") = false
  /\ validate insertion_order call = true
  /\ trace (snd (render insertion_order call w))
     = [EvSend "client.get" (Some [("client_id", VInt 50)])]
  /\ validate reverse_order call = false
  /\ render reverse_order call w = (Raise ValidationError, w).
Proof.
  cbv zeta. split; [right; left; reflexivity|].
  repeat split; reflexivity.
Qed.

(** ** Cleaning *)

(** C5.  [clean] on a response with the JSON content type whose data can be
    read and cleaned: the call's response becomes a wrapper chosen by the
    type of the cleaned value, [dict] gives a [DictResponse], [int] an
    [IntResponse], any other type a [BaseResponse], and the wrapper holds
    the cleaned value.  On any other content type the call's response
    becomes a [FileResponse] on the same transport response, whose data is
    the body.  Nothing else of the call changes. *)
Theorem clean_selects_wrapper ObjDict self resp :
  response self = Some resp ->
  (_type resp = Some "application/json" ->
   forall d cleaned,
     _data ObjDict resp = Ok d ->
     match cleaner self with Some f => f d | None => Ok d end = Ok cleaned ->
     exists call typed,
       clean ObjDict self = Ok call
       /\ response call = Some typed
       /\ call = set_response self typed
       /\ _cleaned typed = Some cleaned
       /\ _response typed = _response resp
       /\ (type_of cleaned = TDict -> cls typed = DictResponse)
       /\ (type_of cleaned = TInt -> cls typed = IntResponse)
       /\ (type_of cleaned <> TDict -> type_of cleaned <> TInt ->
           cls typed = BaseResponse))
  /\ (_type resp <> Some "application/json" ->
      exists call file,
        clean ObjDict self = Ok call
        /\ response call = Some file
        /\ call = set_response self file
        /\ cls file = FileResponse
        /\ _response file = _response resp
        /\ _data ObjDict file = Ok (body_object (content (_response resp)))).
Proof.
  intros Hresp. split.
  - intros Hjson d cleaned Hd Hclean. unfold clean. rewrite Hresp.
    destruct (decide _) as [_|Hn]; [|contradiction].
    rewrite Hd. cbn [rbind]. unfold deepcopy. rewrite Hclean. cbn [rbind].
    eexists. eexists. split; [reflexivity|].
    cbn [set_response response _from_cleaned _cleaned _response cls].
    repeat split.
    + now intros ->.
    + now intros ->.
    + intros Hd' Hi'. now destruct (type_of cleaned).
  - intros Hother. unfold clean. rewrite Hresp.
    destruct (decide _) as [He|_]; [contradiction|].
    eexists. eexists. split; [reflexivity|]. repeat split.
Qed.

Lemma clean_selects_wrapper_witness :
  (exists call typed,
      clean ObjDict_unchanged
        (sample_call [] [] (Some (new BaseResponse
           (json_response "application/json" (VDict client_body)))))
      = Ok call
      /\ response call = Some typed
      /\ cls typed = DictResponse
      /\ _cleaned typed
         = Some (Plain (VDict [("clientid", VStr "50");
                               ("balance", VStr "187559.67")])))
  /\ (exists call typed,
         clean ObjDict_unchanged
           (sample_call [] [] (Some (new BaseResponse
              (json_response "application/json" (VDict count_body)))))
         = Ok call
         /\ response call = Some typed
         /\ cls typed = IntResponse)
  /\ (exists call file,
         clean ObjDict_unchanged
           (sample_call [] [] (Some (new BaseResponse
              (json_response "application/pdf" (VStr "")))))
         = Ok call
         /\ response call = Some file
         /\ cls file = FileResponse).
Proof.
  split; [|split].
  - destruct (proj1 (clean_selects_wrapper ObjDict_unchanged
                       (sample_call [] [] (Some (new BaseResponse
                          (json_response "application/json"
                             (VDict client_body)))))
                       _ eq_refl) eq_refl _ _ eq_refl eq_refl)
      as (call & typed & Hclean & Hresp & _ & Hcleaned & _ & Hdict & _).
    exists call, typed.
    repeat split; [exact Hclean | exact Hresp | exact (Hdict eq_refl)
                  | exact Hcleaned].
  - destruct (proj1 (clean_selects_wrapper ObjDict_unchanged
                       (sample_call [] [] (Some (new BaseResponse
                          (json_response "application/json"
                             (VDict count_body)))))
                       _ eq_refl) eq_refl _ _ eq_refl eq_refl)
      as (call & typed & Hclean & Hresp & _ & _ & _ & _ & Hint & _).
    exists call, typed.
    repeat split; [exact Hclean | exact Hresp | exact (Hint eq_refl)].
  - destruct (proj2 (clean_selects_wrapper ObjDict_unchanged
                       (sample_call [] [] (Some (new BaseResponse
                          (json_response "application/pdf" (VStr "")))))
                       _ eq_refl))
      as (call & file & Hclean & Hresp & _ & Hcls & _).
    + vm_compute. discriminate.
    + exists call, file.
      repeat split; [exact Hclean | exact Hresp | exact Hcls].
Defined.

(** ** Binary64 arithmetic on small ints *)

Lemma digits2_pos_bounds (p : positive) :
  2 ^ (Zpos (digits2_pos p) - 1) <= Zpos p < 2 ^ Zpos (digits2_pos p).
Proof.
  induction p as [p IH|p IH|]; cbn [digits2_pos].
  - rewrite Pos2Z.inj_succ, Pos2Z.inj_xI.
    replace (Z.succ (Zpos (digits2_pos p)) - 1)
      with (Z.succ (Zpos (digits2_pos p) - 1)) by lia.
    rewrite !Z.pow_succ_r by lia.
    generalize dependent (2 ^ (Zpos (digits2_pos p) - 1)).
    generalize dependent (2 ^ Zpos (digits2_pos p)). intros; lia.
  - rewrite Pos2Z.inj_succ. change (Zpos p~0) with (2 * Zpos p).
    replace (Z.succ (Zpos (digits2_pos p)) - 1)
      with (Z.succ (Zpos (digits2_pos p) - 1)) by lia.
    rewrite !Z.pow_succ_r by lia.
    generalize dependent (2 ^ (Zpos (digits2_pos p) - 1)).
    generalize dependent (2 ^ Zpos (digits2_pos p)). intros; lia.
  - cbn. lia.
Qed.





Lemma fexp_binary64 (x : Z) : fexp 53 1024 x = Z.max (x - 53) (-1074).
Proof. reflexivity. Qed.








Lemma Zdigits2_le (m k : Z) : 0 <= m < 2 ^ k -> 0 <= k -> Zdigits2 m <= k.
Proof.
  intros [Hlo Hhi] Hk. destruct m as [|p|p]; cbn [Zdigits2]; try lia.
  pose proof (digits2_pos_bounds p) as [Dlo _].
  destruct (Z.leb_spec (Zpos (digits2_pos p)) k); [assumption|].
  assert (2 ^ k <= 2 ^ (Zpos (digits2_pos p) - 1))
    by (apply Z.pow_le_mono_r; lia).
  lia.
Qed.

Lemma shr_1_m (mrs : shr_record) :
  0 <= shr_m mrs -> shr_m (shr_1 mrs) = shr_m mrs / 2.
Proof.
  destruct mrs as [m r s]. cbn [shr_m]. intros Hm.
  destruct m as [|[p|p|]|p]; cbn [shr_1 shr_m]; try lia;
    try reflexivity.
  - change (Zpos p~1) with (2 * Zpos p + 1).
    apply Z.div_unique with (r := 1); lia.
  - change (Zpos p~0) with (2 * Zpos p).
    apply Z.div_unique with (r := 0); lia.
Qed.

Lemma iter_pos_shr_1_m (p : positive) (mrs : shr_record) :
  0 <= shr_m mrs ->
  shr_m (SpecFloat.iter_pos shr_1 p mrs) = shr_m mrs / 2 ^ Zpos p.
Proof.
  revert mrs. induction p as [p IH|p IH|]; intros mrs Hm; cbn [SpecFloat.iter_pos].
  - assert (H1 : 0 <= shr_m (shr_1 mrs))
      by (rewrite shr_1_m by assumption; apply Z.div_pos; lia).
    assert (Hp : 0 < 2 ^ Zpos p) by (apply Z.pow_pos_nonneg; lia).
    assert (H2 : 0 <= shr_m (SpecFloat.iter_pos shr_1 p (shr_1 mrs)))
      by (rewrite IH by assumption; apply Z.div_pos; lia).
    rewrite IH, IH, shr_1_m by assumption.
    rewrite !Z.div_div by lia. f_equal.
    replace (Zpos p~1) with (1 + (Zpos p + Zpos p)) by lia.
    rewrite !Z.pow_add_r by lia. reflexivity.
  - assert (Hp : 0 < 2 ^ Zpos p) by (apply Z.pow_pos_nonneg; lia).
    assert (H2 : 0 <= shr_m (SpecFloat.iter_pos shr_1 p mrs))
      by (rewrite IH by assumption; apply Z.div_pos; lia).
    rewrite IH, IH by assumption.
    rewrite !Z.div_div by lia. f_equal.
    replace (Zpos p~0) with (Zpos p + Zpos p) by lia.
    rewrite !Z.pow_add_r by lia. reflexivity.
  - now apply shr_1_m.
Qed.

Lemma shr_m_of_loc (m : Z) (l : location) :
  shr_m (shr_record_of_loc m l) = m.
Proof. now destruct l as [|[]]. Qed.

(** The exponent after [shr_fexp], and a bound on the mantissa it leaves. *)
Lemma shr_fexp_bound (m e k : Z) (l : location) :
  0 <= m < 2 ^ k -> 0 <= k ->
  let e' := Z.max e (fexp 53 1024 (Zdigits2 m + e)) in
  snd (shr_fexp 53 1024 m e l) = e'
  /\ 0 <= shr_m (fst (shr_fexp 53 1024 m e l)) < 2 ^ Z.max 0 (k - (e' - e)).
Proof.
  intros [Hlo Hhi] Hk e'. unfold shr_fexp, shr. subst e'.
  set (f := fexp 53 1024 (Zdigits2 m + e)).
  destruct (f - e) as [|n|n] eqn:Hn; cbn [fst snd].
  - rewrite shr_m_of_loc.
    replace (Z.max 0 (k - (Z.max e f - e))) with k by lia. lia.
  - rewrite iter_pos_shr_1_m by (rewrite shr_m_of_loc; lia).
    rewrite shr_m_of_loc.
    assert (Hp : 0 < 2 ^ Zpos n) by (apply Z.pow_pos_nonneg; lia).
    split; [lia|]. split; [apply Z.div_pos; lia|].
    replace (Z.max e f - e) with (Zpos n) by lia.
    destruct (Z.leb_spec (Zpos n) k).
    + replace (Z.max 0 (k - Zpos n)) with (k - Zpos n) by lia.
      apply Z.div_lt_upper_bound; [lia|].
      rewrite <- Z.pow_add_r by lia.
      now replace (Zpos n + (k - Zpos n)) with k by lia.
    + replace (Z.max 0 (k - Zpos n)) with 0 by lia.
      assert (2 ^ k <= 2 ^ Zpos n) by (apply Z.pow_le_mono_r; lia).
      rewrite Z.div_small by lia. cbn. lia.
  - rewrite shr_m_of_loc.
    replace (Z.max 0 (k - (Z.max e f - e))) with k by lia. lia.
Qed.

Lemma round_nearest_even_bound (m : Z) (l : location) :
  m <= round_nearest_even m l <= m + 1.
Proof.
  destruct l as [|[]]; cbn [round_nearest_even]; try lia.
  destruct (Z.even m); lia.
Qed.








(** ** Floats and comparisons *)





(** ** [IntResponse] *)

Section IntResponseFacts.
Import IntResponseMethods.
Variable ObjDict : pyobj -> result pyobj.
Variable float_pow : spec_float -> spec_float -> result value.
Variable float_divmod :
  spec_float -> spec_float -> result (spec_float * spec_float).
Variable self : Response.
Variable n : Z.
Hypothesis Hdata : _data ObjDict self = Ok (Plain (VInt n)).


Lemma float_of_wrapper : float_ ObjDict self = float_of_int n.
Proof. unfold float_, __float__. now rewrite Hdata. Qed.




Lemma truediv_of_wrapper (other : num) :
  binary ObjDict float_pow float_divmod TrueDiv self other
  = (let? x := float_of_int n in
     num_binop float_pow float_divmod TrueDiv (NFloat x) other)
  /\ reflected ObjDict float_pow float_divmod TrueDiv self other
     = (let? x := float_of_int n in
        num_binop float_pow float_divmod TrueDiv other (NFloat x)).
Proof.
  cbn [binary reflected]. unfold __truediv__, __rtruediv__.
  now rewrite float_of_wrapper.
Qed.








End IntResponseFacts.




(** ** [DictResponse] *)

(** The wrapper's [setdefault] never hands the stored value back. *)
Lemma setdefault_returns_None ObjDict self key v h r h' :
  DictResponseMethods.setdefault ObjDict self key v h = (Ok r, h') ->
  r = VNone.
Proof.
  unfold DictResponseMethods.setdefault, DictResponseMethods.hbind,
    DictResponseMethods.hret.
  destruct (DictResponseMethods.data ObjDict self h) as [[l|e] h1];
    [|discriminate].
  destruct (DictResponseMethods.dict_setdefault l key v h1) as [[old|e] h2];
    [|discriminate].
  now intros [= <- _].
Qed.

(** Whether a later read sees a write through the wrapper is decided by
    [ObjDict]: it does when [ObjDict] hands back the object it was given,
    it does not when [ObjDict] builds a new dict. *)
Lemma write_visibility :
  let h : DictResponseMethods.heap := {[ 1%nat := [("clientid", VStr "50")] ]} in
  let self := {| DictResponseMethods.cleaned := 1 |} in
  fst (DictResponseMethods.get DictResponseMethods.ObjDict_same self
         "active" VNone
         (snd (DictResponseMethods.__setitem__ DictResponseMethods.ObjDict_same
                 self "active" (VStr "1") h)))
  = Ok (VStr "1")
  /\ fst (DictResponseMethods.get DictResponseMethods.ObjDict_copy self
            "active" VNone
            (snd (DictResponseMethods.__setitem__
                    DictResponseMethods.ObjDict_copy
                    self "active" (VStr "1") h)))
     = Ok VNone.
Proof. split; vm_compute; reflexivity. Qed.

(** C7.  The mapping [{"clientid": "50"}] and the call
    [setdefault("clientid", "0")]: the dict hands back ["50"], the wrapper
    around it hands back [None], whichever way [ObjDict] treats the
    mapping. *)
Theorem DictResponse_setdefault_differs :
  let h : DictResponseMethods.heap := {[ 1%nat := [("clientid", VStr "50")] ]} in
  let self := {| DictResponseMethods.cleaned := 1 |} in
  fst (DictResponseMethods.dict_setdefault 1 "clientid" (VStr "0") h)
  = Ok (VStr "50")
  /\ fst (DictResponseMethods.setdefault DictResponseMethods.ObjDict_same
            self "clientid" (VStr "0") h)
     = Ok VNone
  /\ fst (DictResponseMethods.setdefault DictResponseMethods.ObjDict_copy
            self "clientid" (VStr "0") h)
     = Ok VNone.
Proof. repeat split; vm_compute; reflexivity. Qed.

(** ** [MethodIndex] *)

Section MethodIndexFacts.
Import MethodIndexMethods.

Lemma tuple_ltb_irrefl (a : list Z) : tuple_ltb a a = false.
Proof.
  induction a as [|x a IH]; [reflexivity|]. cbn [tuple_ltb].
  now rewrite Z.ltb_irrefl.
Qed.

Lemma tuple_ltb_asym (a b : list Z) :
  tuple_ltb a b = true -> tuple_ltb b a = false.
Proof.
  revert b. induction a as [|x a IH]; intros [|y b]; cbn [tuple_ltb];
    try easy.
  destruct (Z.ltb_spec x y), (Z.ltb_spec y x); try easy; try lia.
  apply IH.
Qed.

(** The order on keys is total: what is not below [b] stays not below
    anything that is not above [b]. *)
Lemma tuple_ltb_cotrans (a b c : list Z) :
  tuple_ltb a b = false -> tuple_ltb b c = false -> tuple_ltb a c = false.
Proof.
  revert b c. induction a as [|x a IH]; intros [|y b] [|z c];
    cbn [tuple_ltb]; try easy.
  destruct (Z.ltb_spec x y), (Z.ltb_spec y x), (Z.ltb_spec y z),
    (Z.ltb_spec z y), (Z.ltb_spec x z), (Z.ltb_spec z x);
    try easy; try lia.
  apply IH.
Qed.

Lemma insert_desc_In x y l : In y (insert_desc x l) <-> y = x \/ In y l.
Proof.
  induction l as [|z l IH]; cbn [insert_desc].
  - cbn. intuition.
  - destruct (tuple_ltb (fst x) (fst z)); cbn [In]; [rewrite IH|]; intuition.
Qed.

Lemma sorted_desc_In y l : In y (sorted_desc l) <-> In y l.
Proof.
  induction l as [|x l IH]; [reflexivity|].
  change (sorted_desc (x :: l)) with (insert_desc x (sorted_desc l)).
  rewrite insert_desc_In, IH. cbn. intuition.
Qed.

(** The head of the sorted list has a key that none of the others tops. *)
Lemma sorted_desc_head l x rest :
  sorted_desc l = x :: rest ->
  forall y, In y l -> tuple_ltb (fst x) (fst y) = false.
Proof.
  revert x rest. induction l as [|z l IH]; intros x rest Hs y Hy; [easy|].
  change (sorted_desc (z :: l)) with (insert_desc z (sorted_desc l)) in Hs.
  destruct (sorted_desc l) as [|h t] eqn:E.
  - cbn in Hs. injection Hs as <- <-.
    destruct Hy as [<-|Hy]; [apply tuple_ltb_irrefl|].
    apply sorted_desc_In in Hy. rewrite E in Hy. easy.
  - cbn [insert_desc] in Hs.
    destruct (tuple_ltb (fst z) (fst h)) eqn:Hzh; injection Hs as <- <-.
    + destruct Hy as [<-|Hy]; [now apply tuple_ltb_asym|].
      now apply (IH h t).
    + destruct Hy as [<-|Hy]; [apply tuple_ltb_irrefl|].
      apply tuple_ltb_cotrans with (b := fst h); [exact Hzh|].
      now apply (IH h t).
Qed.

Lemma map_result_keys {A B} (f : A -> result B) l ys :
  map_result f l = Ok ys ->
  length ys = length l
  /\ forall x y, In (y, x) (combine ys l) -> f x = Ok y.
Proof.
  revert ys. induction l as [|a l IH]; intros ys; cbn [map_result].
  - intros [= <-]. split; [reflexivity | easy].
  - destruct (f a) as [b|e] eqn:Ha; cbn [rbind]; [|discriminate].
    destruct (map_result f l) as [bs|e] eqn:Hl; cbn [rbind]; [|discriminate].
    intros [= <-]. destruct (IH bs eq_refl) as [Hlen Hin]. split.
    + cbn. now rewrite Hlen.
    + intros x y [[= <- <-]|H]; [exact Ha | now apply Hin].
Qed.

(** [_get_latest_index], when it returns, returns an available index whose
    version tuple no other available index tops. *)
Lemma _get_latest_index_highest dir name :
  _get_latest_index dir = Ok name ->
  In name (_get_available_indexes dir)
  /\ exists key,
      version_key name = Ok key
      /\ forall other, In other (_get_available_indexes dir) ->
           exists key', version_key other = Ok key'
                        /\ tuple_ltb key key' = false.
Proof.
  unfold _get_latest_index.
  destruct (map_result version_key (_get_available_indexes dir))
    as [keys|e] eqn:Hkeys; cbn [rbind]; [|discriminate].
  destruct (map_result_keys _ _ _ Hkeys) as [Hlen Hkey].
  destruct (sorted_desc (combine keys (_get_available_indexes dir)))
    as [|[key name'] rest] eqn:Hs; [discriminate|].
  intros [= ->].
  assert (Hin : In (key, name) (combine keys (_get_available_indexes dir))).
  { apply sorted_desc_In. rewrite Hs. now left. }
  split; [exact (in_combine_r _ _ _ _ Hin)|].
  exists key. split; [now apply Hkey|].
  intros other Hother.
  destruct (In_nth _ _ EmptyString Hother) as (i & Hi & Hnth).
  set (k := nth i keys []).
  assert (Hk : In (k, other) (combine keys (_get_available_indexes dir))).
  { rewrite <- Hnth. unfold k. rewrite <- combine_nth by exact Hlen.
    apply nth_In. rewrite length_combine. lia. }
  exists k. split; [now apply Hkey|].
  exact (sorted_desc_head _ _ _ Hs _ Hk).
Qed.

(** An index for the wanted version is there: it is the one chosen, and
    nothing is warned about. *)
Lemma _get_index_name_exact self dir wanted w :
  _wanted_index_name self = Some wanted ->
  In wanted (_get_available_indexes dir) ->
  _get_index_name self dir w = (Ok wanted, w).
Proof.
  intros Hw Hin. unfold _get_index_name. rewrite Hw.
  unfold bind, lift, ret.
  replace (existsb _ _) with true; [reflexivity|].
  symmetry. apply existsb_exists. exists wanted.
  split; [exact Hin | apply String.eqb_refl].
Qed.

(** No index for the handler's version: the constructor stops with
    [AttributeError], while building the text of the warning, because
    [version] reads [index_name] and that is not assigned yet.  Nothing is
    warned and no index is chosen. *)
Lemma __init___missing_version handler dir w :
  ~ In (_format_name (handler_version handler)) (_get_available_indexes dir) ->
  __init__ handler dir w = (Raise AttributeError, w).
Proof.
  intros Hn. unfold __init__, _get_index_name.
  cbn [_wanted_index_name index_name]. unfold bind at 1 2. unfold lift at 1.
  destruct (existsb _ _) eqn:E; [|reflexivity].
  apply existsb_exists in E as (f & Hin & He).
  apply String.eqb_eq in He. subst f. contradiction.
Qed.
End MethodIndexFacts.

(** C9.  The handler reports version 4.6.2 and the directory holds the
    indexes of 4.5.3 and 4.10.1: [_get_latest_index] would pick
    [4.10.1.json], the highest version tuple, but [MethodIndex(handler)]
    raises [AttributeError] before it gets there, and no warning is
    emitted. *)
Theorem MethodIndex_fallback_raises :
  MethodIndexMethods._get_available_indexes sample_directory
  = ["4.5.3.json"; "4.10.1.json"]
  /\ MethodIndexMethods._get_latest_index sample_directory = Ok "4.10.1.json"
  /\ MethodIndexMethods.__init__ sample_handler sample_directory
       {| pending := []; trace := [] |}
     = (Raise AttributeError, {| pending := []; trace := [] |}).
Proof. repeat split; vm_compute; reflexivity. Qed.

(** * Further properties *)

(** ** The attempt budget of [process_request] *)

Lemma _send_request_none self method data tr :
  _send_request self method data {| pending := []; trace := tr |}
  = (Raise TransportError,
     {| pending := []; trace := tr ++ [EvSend method data] |}).
Proof. reflexivity. Qed.

(** A failing send ends the loop at once. *)
Lemma attempt_loop_transport_error self method data attempts i range last tr :
  attempt_loop self method data attempts (i :: range) last
    {| pending := []; trace := tr |}
  = (Raise TransportError,
     {| pending := []; trace := tr ++ [EvSend method data] |}).
Proof.
  cbn [attempt_loop]. unfold bind at 1. rewrite _send_request_none.
  reflexivity.
Qed.

Lemma check_json_error_not_transport r resp :
  check_json_error r resp <> Raise TransportError.
Proof.
  unfold check_json_error. destruct (decide _); [|discriminate].
  unfold _json. destruct (cls resp); try discriminate;
    (destruct (body_json (_response resp)) as [j|]; [|discriminate]);
    cbn [rbind]; (destruct j; cbn [py_get rbind]; try discriminate);
    (destruct (negb _); [|discriminate]);
    now destruct (forallb _ _).
Qed.

(** Whatever the server answers, and however many answers it has, one call
    of [process_request] sends the request at most three times, pauses at
    most twice, each time for two seconds, and reads no more answers than
    it sent requests; the answers it did not read stay in order.  A send
    that fails is not tried again: the call ends with that failure, the
    failed send being the last thing it did and the only send left without
    an answer; and when the call ends in any other way, every send got its
    answer. *)
Theorem process_request_attempt_budget self method data w :
  exists later used,
    trace (snd (process_request self method data w)) = trace w ++ later
    /\ pending w = used ++ pending (snd (process_request self method data w))
    /\ (sends later <= 3)%nat
    /\ (sleeps later <= 2)%nat
    /\ (length used <= sends later)%nat
    /\ Forall (fun ev => ev = EvSend method data \/ ev = EvSleep 2) later
    /\ (fst (process_request self method data w) = Raise TransportError ->
        pending (snd (process_request self method data w)) = []
        /\ sends later = S (length used)
        /\ exists earlier, later = earlier ++ [EvSend method data])
    /\ (fst (process_request self method data w) <> Raise TransportError ->
        sends later = length used).
Proof.
  assert (Hjson : forall r (w' : world),
             fst (check_json_error r (new BaseResponse r), w')
             <> Raise TransportError)
    by (intros r w'; apply check_json_error_not_transport).
  assert (Htype : forall r e (w' : world),
             _is_token_response r = Raise e ->
             fst (@Raise Response e, w') <> Raise TransportError)
    by (intros r e w' He; rewrite (_is_token_response_error r e He);
        discriminate).
  destruct (METHODS self !! method) as [d|] eqn:Hd.
  2:{ rewrite process_request_invalid by assumption.
      exists [], []. cbn. rewrite app_nil_r.
      repeat split; auto; try lia; discriminate. }
  rewrite process_request_valid by (rewrite Hd; eauto).
  cbn [seq]. destruct w as [p tr]. cbn [trace pending].
  destruct p as [|r1 p].
  { rewrite attempt_loop_transport_error.
    exists [EvSend method data], []. cbn.
    repeat split; auto; try lia; try (now exists []); congruence. }
  destruct (_is_token_response r1) as [[|]|e1] eqn:H1.
  2:{ rewrite attempt_loop_break by assumption.
      exists [EvSend method data], [r1]. cbn [snd trace pending].
      repeat split; auto; try (cbn; lia);
        exfalso; eapply Hjson; eassumption. }
  2:{ rewrite (attempt_loop_raise _ _ _ _ _ _ _ _ _ _ _ H1).
      exists [EvSend method data], [r1]. cbn [snd trace pending].
      repeat split; auto; try (cbn; lia);
        exfalso; eapply Htype; eassumption. }
  rewrite attempt_loop_retry by (assumption || reflexivity).
  destruct p as [|r2 p].
  { rewrite attempt_loop_transport_error.
    exists [EvSend method data; EvSleep 2; EvSend method data], [r1].
    cbn. rewrite <- !app_assoc.
    repeat split; auto 6; try lia;
      try (now exists [EvSend method data; EvSleep 2]); congruence. }
  destruct (_is_token_response r2) as [[|]|e2] eqn:H2.
  2:{ rewrite attempt_loop_break by assumption.
      exists [EvSend method data; EvSleep 2; EvSend method data], [r1; r2].
      cbn [snd trace pending]. rewrite <- !app_assoc.
      repeat split; auto 6; try (cbn; lia);
        exfalso; eapply Hjson; eassumption. }
  2:{ rewrite (attempt_loop_raise _ _ _ _ _ _ _ _ _ _ _ H2).
      exists [EvSend method data; EvSleep 2; EvSend method data], [r1; r2].
      cbn [snd trace pending]. rewrite <- !app_assoc.
      repeat split; auto 6; try (cbn; lia);
        exfalso; eapply Htype; eassumption. }
  rewrite attempt_loop_retry by (assumption || reflexivity).
  destruct p as [|r3 p].
  { rewrite attempt_loop_transport_error.
    exists [EvSend method data; EvSleep 2; EvSend method data; EvSleep 2;
            EvSend method data], [r1; r2].
    cbn. rewrite <- !app_assoc.
    repeat split; auto 8; try lia;
      try (now exists [EvSend method data; EvSleep 2;
                       EvSend method data; EvSleep 2]); congruence. }
  destruct (_is_token_response r3) as [[|]|e3] eqn:H3.
  - rewrite attempt_loop_give_up by (assumption || reflexivity).
    exists [EvSend method data; EvSleep 2; EvSend method data; EvSleep 2;
            EvSend method data], [r1; r2; r3].
    cbn. rewrite <- !app_assoc. repeat split; auto 8; try lia; discriminate.
  - rewrite attempt_loop_break by assumption.
    exists [EvSend method data; EvSleep 2; EvSend method data; EvSleep 2;
            EvSend method data], [r1; r2; r3].
    cbn [snd trace pending]. rewrite <- !app_assoc.
    repeat split; auto 8; try (cbn; lia);
      exfalso; eapply Hjson; eassumption.
  - rewrite (attempt_loop_raise _ _ _ _ _ _ _ _ _ _ _ H3).
    exists [EvSend method data; EvSleep 2; EvSend method data; EvSleep 2;
            EvSend method data], [r1; r2; r3].
    cbn [snd trace pending]. rewrite <- !app_assoc.
    repeat split; auto 8; try (cbn; lia);
      exfalso; eapply Htype; eassumption.
Qed.

(** ** The other outcomes of the JSON check *)

(** The response that ends the loop has the JSON content type: a body that
    does not decode raises [ValueError], a decoded body that is not an
    object raises [AttributeError], and an object with a truthy [status]
    is handed back in a [BaseResponse] on that very response. *)
Theorem process_request_json_outcomes self method data w w' r :
  is_Some (METHODS self !! method) ->
  attempt_loop self method data 3 (seq 0 3) None w = (Ok r, w') ->
  headers r !! "content-type" = Some "application/json" ->
  (body_json r = None ->
   process_request self method data w = (Raise ValueError, w'))
  /\ (forall j, body_json r = Some j -> (forall items, j <> VDict items) ->
        process_request self method data w = (Raise AttributeError, w'))
  /\ (forall items, body_json r = Some (VDict items) ->
        truthy (default VNone (assoc "status" items)) = true ->
        process_request self method data w = (Ok (new BaseResponse r), w')).
Proof.
  intros Hvalid Hloop Hct.
  rewrite (process_request_terminal _ _ _ _ _ _ Hvalid Hloop).
  split; [|split].
  - intros Hbody. unfold check_json_error.
    destruct (decide _) as [_|Hn]; [|contradiction].
    unfold _json. cbn [new cls _response]. now rewrite Hbody.
  - intros j Hbody Hj. unfold check_json_error.
    destruct (decide _) as [_|Hn]; [|contradiction].
    unfold _json. cbn [new cls _response]. rewrite Hbody. cbn [rbind].
    destruct j; try reflexivity. now elim (Hj items).
  - intros items Hbody Hstatus.
    now rewrite (check_json_error_object _ _ Hct Hbody), Hstatus.
Qed.

Lemma process_request_json_outcomes_witness :
  process_request sample_handler "client.get" None
    {| pending := [json_response "application/json" (VDict client_body)];
       trace := [] |}
  = (Ok (new BaseResponse
           (json_response "application/json" (VDict client_body))),
     {| pending := []; trace := [EvSend "client.get" None] |})
  /\ process_request sample_handler "client.get" None
       {| pending := [json_response "application/json" (VList [])];
          trace := [] |}
     = (Raise AttributeError,
        {| pending := []; trace := [EvSend "client.get" None] |}).
Proof.
  split.
  - apply (proj2 (proj2 (process_request_json_outcomes sample_handler
                           "client.get" None
                           {| pending := [json_response "application/json"
                                            (VDict client_body)];
                              trace := [] |}
                           {| pending := [];
                              trace := [EvSend "client.get" None] |}
                           (json_response "application/json"
                              (VDict client_body))
                           sample_method_valid eq_refl eq_refl))
             client_body eq_refl eq_refl).
  - apply (proj1 (proj2 (process_request_json_outcomes sample_handler
                           "client.get" None
                           {| pending := [json_response "application/json"
                                            (VList [])];
                              trace := [] |}
                           {| pending := [];
                              trace := [EvSend "client.get" None] |}
                           (json_response "application/json" (VList []))
                           sample_method_valid eq_refl eq_refl))
             (VList []) eq_refl).
    discriminate.
Defined.

(** ** Validation of required fields *)

Lemma insertion_order_In (l : list field) (f : field) :
  In f (insertion_order l) <-> In f l.
Proof.
  unfold insertion_order. rewrite <- !list_elem_of_In.
  apply elem_of_remove_dups.
Defined.

(** When every entry of [required_fields] is satisfied by the request data,
    a name by being a key and a collection by sharing a key, [validate]
    returns [True], in whatever order the set of missing fields is
    iterated; so a [False] always points at an unsatisfied entry. *)
Theorem validate_accepts_satisfied set_iter self :
  (forall l f, In f (set_iter l) -> In f l) ->
  (forall f, In f (required_fields self) ->
             satisfied (request_data self) f = true) ->
  validate set_iter self = true.
Proof.
  intros Hsub Hsat. unfold validate.
  destruct (set_iter _) as [|f fields] eqn:E; [reflexivity|].
  assert (Hin : In f (f :: fields)) by (left; reflexivity).
  rewrite <- E in Hin. apply Hsub, filter_In in Hin as [Hreq Hmiss].
  pose proof (Hsat f Hreq) as Hf.
  destruct f as [name|members]; cbn [validate_loop satisfied supplied] in *.
  - rewrite Hf in Hmiss. discriminate Hmiss.
  - exact Hf.
Qed.

Lemma validate_accepts_satisfied_witness :
  validate insertion_order
    (sample_call [Flat "client_id"; Group ["email"; "phone"]]
                 [("client_id", VInt 50); ("phone", VStr "555-0100")] None)
  = true.
Proof.
  apply validate_accepts_satisfied.
  - intros l f Hin. now apply insertion_order_In.
  - intros f [<-|[<-|[]]]; reflexivity.
Defined.

(** When the required fields are all plain names, [validate] is exact: it
    returns [True] if and only if every one of them is a key of the request
    data, in whatever order the set is iterated. *)
Theorem validate_flat_fields_exact set_iter self :
  (forall l f, In f (set_iter l) <-> In f l) ->
  (forall f, In f (required_fields self) -> exists name, f = Flat name) ->
  validate set_iter self = true
  <-> forall name, In (Flat name) (required_fields self) ->
                   In name (map fst (request_data self)).
Proof.
  intros Hiter Hflat. split.
  - intros Hv name Hin. apply has_key_In.
    destruct (has_key (request_data self) name) eqn:Hk; [reflexivity|].
    assert (Hmiss : In (Flat name)
              (set_iter (List.filter
                           (fun f => negb (supplied (request_data self) f))
                           (required_fields self)))).
    { apply Hiter, filter_In. split; [exact Hin|].
      cbn [supplied]. now rewrite Hk. }
    unfold validate in Hv.
    destruct (set_iter _) as [|f fields] eqn:E; [easy|].
    assert (Hf : In f (f :: fields)) by (left; reflexivity).
    rewrite <- E in Hf. apply Hiter, filter_In in Hf as [Hreq _].
    destruct (Hflat f Hreq) as [name' ->]. discriminate Hv.
  - intros Hall. apply validate_complete.
    + intros l f. apply Hiter.
    + intros f Hin. destruct (Hflat f Hin) as [name ->].
      cbn [satisfied]. apply has_key_In. now apply Hall.
Qed.

Lemma validate_flat_fields_exact_witness :
  validate insertion_order
    (sample_call [Flat "client_id"; Flat "invoice_id"]
                 [("client_id", VInt 50)] None)
  = true
  <-> forall name,
      In (Flat name) [Flat "client_id"; Flat "invoice_id"] ->
      In name ["client_id"].
Proof.
  apply (validate_flat_fields_exact insertion_order
           (sample_call [Flat "client_id"; Flat "invoice_id"]
                        [("client_id", VInt 50)] None)).
  - exact insertion_order_In.
  - intros f [<-|[<-|[]]]; eauto.
Defined.

(** ** Generic calls *)

Section GenericCallFacts.
Import GenericCalls.

Lemma str_in_char_cons (sep a : ascii) (s : string) :
  str_in (String sep EmptyString) (String a s)
  = if Ascii.eqb a sep then true else str_in (String sep EmptyString) s.
Proof.
  cbn [str_in String.prefix].
  destruct (ascii_dec sep a) as [->|Hne].
  - rewrite Ascii.eqb_refl. now destruct s.
  - destruct (Ascii.eqb_spec a sep) as [->|_]; [now elim Hne|reflexivity].
Qed.

Lemma split_once_without (sep : ascii) (s : string) :
  str_in (String sep EmptyString) s = false -> split_once sep s = [s].
Proof.
  induction s as [|a s IH]; [reflexivity|].
  rewrite str_in_char_cons. cbn [split_once].
  destruct (Ascii.eqb a sep); [discriminate|].
  intros Hs. now rewrite (IH Hs).
Qed.

Lemma split_once_with (sep : ascii) (s : string) :
  str_in (String sep EmptyString) s = true ->
  exists a b, split_once sep s = [a; b] /\ s = (a ++ String sep b)%string.
Proof.
  induction s as [|a s IH]; [discriminate|].
  rewrite str_in_char_cons. cbn [split_once].
  destruct (Ascii.eqb_spec a sep) as [->|Hne].
  - intros _. exists EmptyString, s. split; reflexivity.
  - intros Hs. destruct (IH Hs) as (x & y & -> & ->).
    exists (String a x), y. split; reflexivity.
Qed.

Lemma not_contains_str_in (s sub : string) :
  ~ contains s sub -> str_in sub s = false.
Proof.
  intros H. destruct (str_in sub s) eqn:E; [|reflexivity].
  apply str_in_contains in E. contradiction.
Qed.

Lemma _get_call_class_dotted (method : string) :
  contains method "." ->
  _get_call_class method
  = Ok (GenericBaseCall method).
Proof.
  intros Hdot. apply str_in_contains in Hdot. unfold _get_call_class.
  destruct (split_once_with _ _ Hdot) as (a & b & -> & ->). reflexivity.
Qed.

(** [_get_call_class] splits the method name at its first dot and joins
    the two parts again: for every name with a dot the class it builds
    carries exactly that name, requires no field and has no cleaner; a name
    without a dot raises [ValueError]. *)
Theorem _get_call_class_round_trip (method : string) :
  (contains method "." ->
   _get_call_class method = Ok (GenericBaseCall method))
  /\ (~ contains method "." -> _get_call_class method = Raise ValueError).
Proof.
  unfold _get_call_class. split.
  - intros Hdot. apply str_in_contains in Hdot.
    destruct (split_once_with _ _ Hdot) as (a & b & -> & ->).
    reflexivity.
  - intros Hdot.
    rewrite split_once_without; [reflexivity|].
    destruct (str_in "." method) eqn:E; [|reflexivity].
    apply str_in_contains in E. contradiction.
Qed.

Lemma _get_call_class_round_trip_witness :
  _get_call_class "client.invoice_list"
  = Ok (GenericBaseCall "client.invoice_list")
  /\ _get_call_class "ping" = Raise ValueError.
Proof.
  split.
  - apply (proj1 (_get_call_class_round_trip "client.invoice_list")).
    exists "client", "invoice_list". reflexivity.
  - apply (proj2 (_get_call_class_round_trip "ping")).
    intros Hdot. apply str_in_contains in Hdot. discriminate Hdot.
Defined.

(** A call function generated for a method name with a dot and bound to a
    handler: calling it with keyword arguments is [process_request] on that
    handler with that method and those arguments.  Nothing is validated,
    [ValidationError] cannot come out of it, and the default handler is not
    consulted.  Left unbound, the call uses the default handler, and fails
    before anything is sent when there is none. *)
Theorem generic_call_is_process_request set_iter method h kwargs default :
  (forall l f, In f (set_iter l) -> In f l) ->
  contains method "." ->
  exists c,
    _get_call_class method = Ok c
    /\ (exists run,
          __call__ set_iter
            (handler {| call_class_of := c; bound_handler := None |} h)
            kwargs default
          = Some run
          /\ forall w,
              run w
              = match process_request h method (Some kwargs) w with
                | (Ok r, w') => (Ok (Some r), w')
                | (Raise e, w') => (Raise e, w')
                end)
    /\ __call__ set_iter {| call_class_of := c; bound_handler := None |}
         kwargs (Some h)
       = __call__ set_iter
           (handler {| call_class_of := c; bound_handler := None |} h)
           kwargs default
    /\ __call__ set_iter {| call_class_of := c; bound_handler := None |}
         kwargs None
       = None.
Proof.
  intros Hiter Hdot. exists (GenericBaseCall method).
  split; [now apply _get_call_class_dotted|].
  assert (Hdata : match Some kwargs with
                  | Some (kv :: rest) => kv :: rest
                  | _ => []
                  end = kwargs) by now destruct kwargs.
  split; [|split; [|reflexivity]].
  - eexists. split; [reflexivity|]. intros w.
    cbn [GenericBaseCall class_method class_required_fields class_cleaner].
    rewrite Hdata. rewrite render_valid; [reflexivity|].
    apply validate_complete; [exact Hiter|]. intros f [].
  - reflexivity.
Qed.

Lemma generic_call_is_process_request_witness :
  exists run,
    __call__ insertion_order
      (handler {| call_class_of := GenericBaseCall "client.get";
                  bound_handler := None |} sample_handler)
      [("client_id", VInt 50)] None
    = Some run
    /\ run {| pending := [json_response "application/json"
                            (VDict client_body)];
              trace := [] |}
       = (Ok (Some (new BaseResponse
                      (json_response "application/json"
                         (VDict client_body)))),
          {| pending := [];
             trace := [EvSend "client.get"
                         (Some [("client_id", VInt 50)])] |}).
Proof.
  destruct (generic_call_is_process_request insertion_order "client.get"
              sample_handler [("client_id", VInt 50)] None)
    as (c & Hc & (run & Hrun & Hw) & _).
  - intros l f Hin. now apply insertion_order_In.
  - exists "client", "get". reflexivity.
  - assert (c = GenericBaseCall "client.get") as -> by (now injection Hc).
    exists run. split; [exact Hrun|]. rewrite Hw. reflexivity.
Defined.
End GenericCallFacts.

(** ** Choosing an index file *)

Section IndexChoiceFacts.
Import MethodIndexMethods.

(** The head of the sorted list is the first of the elements with the
    greatest key. *)
Lemma sorted_desc_first l x rest :
  sorted_desc l = x :: rest ->
  exists l1 l2,
    l = l1 ++ x :: l2
    /\ forall y, In y l1 -> tuple_ltb (fst y) (fst x) = true.
Proof.
  revert x rest. induction l as [|z l IH]; intros x rest Hs; [discriminate|].
  change (sorted_desc (z :: l)) with (insert_desc z (sorted_desc l)) in Hs.
  destruct (sorted_desc l) as [|h t] eqn:E.
  - cbn in Hs. injection Hs as <- <-. exists [], l. split; [reflexivity|easy].
  - cbn [insert_desc] in Hs.
    destruct (tuple_ltb (fst z) (fst h)) eqn:Hzh; injection Hs as <- <-.
    + destruct (IH h t eq_refl) as (l1 & l2 & -> & Hl1).
      exists (z :: l1), l2. split; [reflexivity|].
      intros y [<-|Hy]; [exact Hzh | now apply Hl1].
    + exists [], l. split; [reflexivity|easy].
Qed.

Lemma map_snd_combine {A B} (xs : list A) (ys : list B) :
  length xs = length ys -> map snd (combine xs ys) = ys.
Proof.
  revert ys. induction xs as [|x xs IH]; intros [|y ys] Hlen;
    try discriminate; [reflexivity|].
  cbn. f_equal. apply IH. now injection Hlen.
Qed.

(** Among the available index files, [_get_latest_index] returns the first
    one, in the order the directory lists them, whose version tuple is the
    greatest: the files listed before it have strictly smaller tuples, the
    files listed after it have tuples that are not greater. *)
Theorem _get_latest_index_first_highest dir name :
  _get_latest_index dir = Ok name ->
  exists before after key,
    _get_available_indexes dir = before ++ name :: after
    /\ version_key name = Ok key
    /\ (forall f, In f before ->
          exists k, version_key f = Ok k /\ tuple_ltb k key = true)
    /\ (forall f, In f after ->
          exists k, version_key f = Ok k /\ tuple_ltb key k = false).
Proof.
  intros Hlatest. pose proof Hlatest as Hhigh.
  apply _get_latest_index_highest in Hhigh as (_ & key0 & Hkey0 & Hhigh).
  unfold _get_latest_index in Hlatest.
  destruct (map_result version_key (_get_available_indexes dir))
    as [keys|e] eqn:Hkeys; cbn [rbind] in Hlatest; [|discriminate].
  destruct (map_result_keys _ _ _ Hkeys) as [Hlen Hkey].
  destruct (sorted_desc (combine keys (_get_available_indexes dir)))
    as [|[key name'] rest] eqn:Hs; [discriminate|].
  injection Hlatest as ->.
  destruct (sorted_desc_first _ _ _ Hs) as (l1 & l2 & Hsplit & Hl1).
  assert (Hnames : _get_available_indexes dir
                   = map snd l1 ++ name :: map snd l2).
  { rewrite <- (map_snd_combine keys (_get_available_indexes dir) Hlen).
    rewrite Hsplit, map_app. reflexivity. }
  assert (Hk : version_key name = Ok key).
  { apply Hkey. rewrite Hsplit. apply in_or_app. right. now left. }
  exists (map snd l1), (map snd l2), key.
  split; [exact Hnames|]. split; [exact Hk|]. split.
  - intros f Hf. apply in_map_iff in Hf as ([k f'] & <- & Hin).
    exists k. split.
    + apply Hkey. rewrite Hsplit. apply in_or_app. now left.
    + exact (Hl1 _ Hin).
  - intros f Hf.
    assert (Hin : In f (_get_available_indexes dir)).
    { rewrite Hnames. apply in_or_app. right. now right. }
    destruct (Hhigh f Hin) as (k & Hfk & Hlt).
    exists k. split; [exact Hfk|]. congruence.
Qed.

Lemma _get_latest_index_first_highest_witness :
  exists before after key,
    _get_available_indexes sample_directory = before ++ "4.10.1.json" :: after
    /\ version_key "4.10.1.json" = Ok key
    /\ (forall f, In f before ->
          exists k, version_key f = Ok k /\ tuple_ltb k key = true)
    /\ (forall f, In f after ->
          exists k, version_key f = Ok k /\ tuple_ltb key k = false).
Proof.
  apply (_get_latest_index_first_highest sample_directory "4.10.1.json").
  vm_compute. reflexivity.
Defined.

Lemma py_int_error s e : py_int s = Raise e -> e = ValueError.
Proof.
  unfold py_int. destruct (digits _ 0 false); [|now intros [= <-]].
  destruct (_ <? _)%nat; [now intros [= <-] | discriminate].
Qed.

Lemma map_result_error {A B} (f : A -> result B) (l : list A) (E : exn) :
  (forall x e, f x = Raise e -> e = E) ->
  (exists x, In x l /\ forall y, f x <> Ok y) ->
  map_result f l = Raise E.
Proof.
  intros HE (x & Hin & Hx). induction l as [|a l IH]; [easy|].
  cbn [map_result]. destruct (f a) as [b|e] eqn:Ha; cbn [rbind].
  - destruct Hin as [->|Hin]; [now elim (Hx b)|].
    now rewrite (IH Hin).
  - now rewrite (HE a e Ha).
Qed.

Lemma map_result_ok {A B} (f : A -> result B) (l : list A) :
  (forall x, In x l -> exists y, f x = Ok y) ->
  exists ys, map_result f l = Ok ys /\ length ys = length l.
Proof.
  induction l as [|a l IH]; intros Hall; [now exists []|].
  destruct (Hall a (or_introl eq_refl)) as [b Hb].
  destruct IH as (ys & Hys & Hlen); [intros x Hx; apply Hall; now right|].
  exists (b :: ys). cbn [map_result]. rewrite Hb, Hys. cbn.
  split; [reflexivity | now rewrite Hlen].
Qed.

Lemma version_key_error x e : version_key x = Raise e -> e = ValueError.
Proof.
  unfold version_key.
  generalize (split "." (rpartition_head "." x)). intros l.
  induction l as [|s l IH]; cbn [map_result]; [discriminate|].
  destruct (py_int s) as [n|e'] eqn:Hs; cbn [rbind].
  - destruct (map_result py_int l); cbn [rbind]; [discriminate|].
    intros [= <-]. now apply IH.
  - intros [= <-]. exact (py_int_error _ _ Hs).
Qed.

(** When [_get_latest_index] fails and when it does not: with no index
    file at all it raises [IndexError]; with an index file whose name,
    before the extension, is not made of integers between dots it raises
    [ValueError], wherever that file stands; otherwise it returns a name. *)
Theorem _get_latest_index_outcomes dir :
  (_get_available_indexes dir = [] ->
   _get_latest_index dir = Raise IndexError)
  /\ ((exists f, In f (_get_available_indexes dir)
                 /\ forall k, version_key f <> Ok k) ->
      _get_latest_index dir = Raise ValueError)
  /\ (_get_available_indexes dir <> [] ->
      (forall f, In f (_get_available_indexes dir) ->
                 exists k, version_key f = Ok k) ->
      exists name, _get_latest_index dir = Ok name).
Proof.
  unfold _get_latest_index. split; [|split].
  - intros ->. reflexivity.
  - intros Hbad.
    now rewrite (map_result_error version_key _ ValueError
                   version_key_error Hbad).
  - intros Hne Hall.
    destruct (map_result_ok version_key _ Hall) as (keys & -> & Hlen).
    cbn [rbind].
    destruct (sorted_desc (combine keys (_get_available_indexes dir)))
      as [|[k name] rest] eqn:Hs; [|now exists name].
    destruct (_get_available_indexes dir) as [|f fs]; [now elim Hne|].
    destruct keys as [|k keys]; [discriminate|].
    assert (Hin : In (k, f) (sorted_desc (combine (k :: keys) (f :: fs))))
      by (apply sorted_desc_In; now left).
    rewrite Hs in Hin. destruct Hin.
Qed.
End IndexChoiceFacts.

Lemma _get_latest_index_outcomes_witness :
  MethodIndexMethods._get_latest_index unversioned_directory
  = Raise ValueError.
Proof.
  apply (proj1 (proj2 (_get_latest_index_outcomes
                         unversioned_directory))).
  exists "latest.json". split; [right; left; reflexivity|].
  intros k. vm_compute. discriminate.
Defined.

(** ** An index for the handler's own version *)

Section ExactIndexFacts.
Import MethodIndexMethods.

Lemma length_append (s t : string) :
  String.length (s ++ t) = (String.length s + String.length t)%nat.
Proof.
  induction s as [|a s IH]; [reflexivity|].
  change (String.length (String a s ++ t))
    with (S (String.length (s ++ t))).
  now rewrite IH.
Qed.

Lemma substring_skip (s t : string) (n : nat) :
  substring (String.length s) n (s ++ t) = substring 0 n t.
Proof. induction s as [|a s IH]; [reflexivity | exact IH]. Qed.

Lemma endswith_format_name (v : string) :
  endswith (_format_name v) ".json" = true.
Proof.
  unfold endswith, _format_name. rewrite length_append.
  replace (String.length v + String.length ".json"
           - String.length ".json")%nat
    with (String.length v) by lia.
  rewrite substring_skip. apply andb_true_intro. split.
  - apply Nat.leb_le. lia.
  - reflexivity.
Qed.

(** The name of an index file, read back: what stands before the last dot
    is the version the name was made from. *)
Lemma rpartition_format_name (v : string) :
  rpartition_head "." (_format_name v) = v.
Proof.
  unfold rpartition_head, _format_name.
  assert (H : before_last "." (v ++ ".json") = Some v);
    [|now rewrite H].
  induction v as [|a v IH]; [reflexivity|].
  change (String a v ++ ".json")%string with (String a (v ++ ".json")%string).
  cbn [before_last]. now rewrite IH.
Qed.

(** When the directory holds the index file named after the version the
    handler reports, the constructor succeeds without a warning and without
    touching the network, takes that file, and the index then reports the
    handler's version as its own. *)
Theorem MethodIndex_exact_version h dir w data :
  In (_format_name (handler_version h)) (listdir dir) ->
  load dir (_format_name (handler_version h)) = Ok data ->
  exists index,
    __init__ h dir w = (Ok index, w)
    /\ index_name index = Some (_format_name (handler_version h))
    /\ _index_data index = Some data
    /\ version index = Ok (handler_version h).
Proof.
  intros Hin Hload.
  assert (Havail : In (_format_name (handler_version h))
                      (_get_available_indexes dir)).
  { apply filter_In. split; [exact Hin | apply endswith_format_name]. }
  unfold __init__. unfold bind at 1.
  rewrite (_get_index_name_exact _ dir (_format_name (handler_version h)))
    by (reflexivity || exact Havail).
  unfold bind, lift, ret, _get_index_data. cbn [index_name].
  rewrite Hload. eexists. split; [reflexivity|].
  split; [reflexivity|]. split; [reflexivity|].
  unfold version. cbn [index_name].
  rewrite rpartition_format_name.
  replace (String.eqb (_format_name (handler_version h)) "") with false;
    [reflexivity|].
  symmetry. apply String.eqb_neq. unfold _format_name.
  now destruct (handler_version h).
Qed.

Lemma MethodIndex_exact_version_witness :
  exists index,
    __init__ sample_handler exact_directory {| pending := []; trace := [] |}
    = (Ok index, {| pending := []; trace := [] |})
    /\ index_name index = Some "4.6.2.json"
    /\ version index = Ok "4.6.2".
Proof.
  destruct (MethodIndex_exact_version sample_handler exact_directory
              {| pending := []; trace := [] |}
              (VDict [("file", VStr "4.6.2.json")]))
    as (index & Hinit & Hname & _ & Hversion).
  - right. left. reflexivity.
  - reflexivity.
  - exists index. repeat split; assumption.
Defined.
End ExactIndexFacts.

(** ** True division out of the float range *)

(** The mantissa [shr_fexp] leaves is the one it was given, divided by the
    power of two the exponent went up by. *)
Lemma shr_fexp_m (m e : Z) (l : location) :
  0 <= m ->
  shr_m (fst (shr_fexp 53 1024 m e l))
  = m / 2 ^ (Z.max e (fexp 53 1024 (Zdigits2 m + e)) - e).
Proof.
  intros Hm. unfold shr_fexp, shr.
  set (f := fexp 53 1024 (Zdigits2 m + e)).
  destruct (f - e) as [|n|n] eqn:Hn; cbn [fst].
  - rewrite shr_m_of_loc. replace (Z.max e f - e) with 0 by lia.
    now rewrite Z.div_1_r.
  - rewrite iter_pos_shr_1_m by (rewrite shr_m_of_loc; lia).
    rewrite shr_m_of_loc. now replace (Z.max e f - e) with (Zpos n) by lia.
  - rewrite shr_m_of_loc. replace (Z.max e f - e) with 0 by lia.
    now rewrite Z.div_1_r.
Qed.

(** An int of 1025 bits or more rounds to an infinity. *)
Lemma binary_round_overflow (s : bool) (p : positive) :
  2 ^ 1024 <= Zpos p ->
  binary_round 53 1024 s p 0 = S754_infinity s.
Proof.
  intros Hp. pose proof (digits2_pos_bounds p) as [Dlo Dhi].
  set (d := Zpos (digits2_pos p)) in *.
  assert (Hd : 1025 <= d).
  { destruct (Z.leb_spec 1025 d); [assumption|].
    assert (2 ^ d <= 2 ^ 1024) by (apply Z.pow_le_mono_r; lia). lia. }
  unfold binary_round. rewrite Z.add_0_r. fold d. rewrite fexp_binary64.
  replace (Z.max (d - 53) (-1074)) with (d - 53) by lia.
  unfold shl_align. destruct (d - 53 - 0) as [|k|k] eqn:Hk; try lia.
  unfold binary_round_aux.
  pose proof (shr_fexp_bound (Zpos p) 0 d loc_Exact ltac:(lia) ltac:(lia))
    as [He1 _].
  pose proof (shr_fexp_m (Zpos p) 0 loc_Exact ltac:(lia)) as Hm1.
  destruct (shr_fexp 53 1024 (Zpos p) 0 loc_Exact) as [mrs1 e1].
  cbn [fst snd] in He1, Hm1. cbn [Zdigits2] in He1, Hm1. fold d in He1, Hm1.
  rewrite Z.add_0_r, fexp_binary64 in He1, Hm1.
  replace (Z.max 0 (Z.max (d - 53) (-1074))) with (d - 53) in He1, Hm1 by lia.
  rewrite Z.sub_0_r in Hm1.
  assert (Hpow : 0 < 2 ^ (d - 53)) by (apply Z.pow_pos_nonneg; lia).
  assert (Hlo : 2 ^ 52 <= shr_m mrs1).
  { rewrite Hm1. apply Z.div_le_lower_bound; [lia|].
    rewrite <- Z.pow_add_r by lia.
    now replace (d - 53 + 52) with (d - 1) by lia. }
  assert (Hhi : shr_m mrs1 < 2 ^ 53).
  { rewrite Hm1. apply Z.div_lt_upper_bound; [lia|].
    rewrite <- Z.pow_add_r by lia.
    now replace (d - 53 + 53) with d by lia. }
  pose proof (round_nearest_even_bound (shr_m mrs1) (loc_of_shr_record mrs1))
    as Hr.
  set (m1 := round_nearest_even (shr_m mrs1) (loc_of_shr_record mrs1)) in *.
  assert (Hm1' : 0 <= m1 < 2 ^ 54) by lia.
  pose proof (Zdigits2_le m1 54 Hm1' ltac:(lia)) as Hd1.
  pose proof (shr_fexp_bound m1 e1 54 loc_Exact Hm1' ltac:(lia)) as [He2 _].
  pose proof (shr_fexp_m m1 e1 loc_Exact ltac:(lia)) as Hm2.
  destruct (shr_fexp 53 1024 m1 e1 loc_Exact) as [mrs2 e2].
  cbn [fst snd] in He2, Hm2. rewrite fexp_binary64 in He2, Hm2.
  rewrite <- He2 in Hm2.
  assert (Hshift : e2 - e1 = 0 \/ e2 - e1 = 1) by lia.
  assert (Hpos : 0 < shr_m mrs2).
  { rewrite Hm2. destruct Hshift as [-> | ->]; apply Z.div_str_pos; lia. }
  destruct (shr_m mrs2) as [|m2|m2]; try lia.
  replace (e2 <=? 1024 - 53) with false; [reflexivity|].
  symmetry. apply Z.leb_gt. lia.
Qed.

Lemma float_of_int_overflow (n : Z) :
  2 ^ 1024 <= Z.abs n -> float_of_int n = Raise OverflowError.
Proof.
  intros Hn. unfold float_of_int, binary_normalize.
  destruct n as [|p|p]; [cbn in Hn; lia| |];
    now rewrite binary_round_overflow by (cbn in Hn; lia).
Qed.

(** An [IntResponse] around an int of 1025 bits or more cannot be divided:
    [self / other] and [other / self] raise [OverflowError] for every int
    or float [other], zero included, because the wrapped int is turned into
    a float before anything else. *)
Theorem IntResponse_truediv_out_of_range
    ObjDict float_pow float_divmod self n other :
  _data ObjDict self = Ok (Plain (VInt n)) ->
  2 ^ 1024 <= Z.abs n ->
  IntResponseMethods.binary ObjDict float_pow float_divmod TrueDiv self other
  = Raise OverflowError
  /\ IntResponseMethods.reflected ObjDict float_pow float_divmod TrueDiv self
       other
     = Raise OverflowError.
Proof.
  intros Hdata Hn.
  destruct (truediv_of_wrapper ObjDict float_pow float_divmod self n Hdata
              other)
    as [-> ->].
  rewrite (float_of_int_overflow n Hn). split; reflexivity.
Qed.

Lemma IntResponse_truediv_out_of_range_witness :
  IntResponseMethods.binary ObjDict_unchanged float_pow_unmodelled
    float_divmod_unmodelled TrueDiv (int_response (2 ^ 1024)) (NInt 0)
  = Raise OverflowError.
Proof.
  apply (proj1 (IntResponse_truediv_out_of_range ObjDict_unchanged
                  float_pow_unmodelled float_divmod_unmodelled
                  (int_response (2 ^ 1024))
                  (2 ^ 1024) (NInt 0) eq_refl
                  ltac:(vm_compute; discriminate))).
Defined.

(** ** [DictResponse] when [ObjDict] hands back the object it is given *)




Lemma set_item_fresh (k : string) (v : value) (d : py_dict) :
  assoc k d = None -> DictResponseMethods.set_item k v d = d ++ [(k, v)].
Proof.
  induction d as [|[k' v'] d IH]; cbn [DictResponseMethods.set_item assoc];
    [reflexivity|].
  destruct (String.eqb k k'); [discriminate|].
  intros Hd. cbn. now rewrite IH.
Qed.



Section DictResponseSameObject.
Import DictResponseMethods.
Variable ObjDict : nat -> H nat.
Hypothesis ObjDict_same_object : forall l h, ObjDict l h = (Ok l, h).
Variable self : DictWrapper.
Variable h : heap.
Variable d : py_dict.
Hypothesis Hobject : h !! cleaned self = Some d.




End DictResponseSameObject.

Section DictResponseReadBack.
Import DictResponseMethods.
Variable ObjDict : nat -> H nat.
Hypothesis ObjDict_same_object : forall l h, ObjDict l h = (Ok l, h).
Variable self : DictWrapper.
Variable h : heap.
Variable d : py_dict.
Hypothesis Hobject : h !! cleaned self = Some d.


End DictResponseReadBack.



(** ** The method index queried and the call functions generated from it *)

Section GeneratedCallFacts.
Import GeneratedCalls.

Lemma ns_get_set_eq k b ns : ns_get k (ns_set k b ns) = Some b.
Proof.
  induction ns as [|[k' b'] ns IH]; cbn [ns_set ns_get].
  - now rewrite String.eqb_refl.
  - destruct (String.eqb k k') eqn:E; cbn [ns_get].
    + now rewrite String.eqb_refl.
    + now rewrite E.
Qed.

Lemma ns_get_set_ne k k' b ns :
  k' <> k -> ns_get k' (ns_set k b ns) = ns_get k' ns.
Proof.
  intros Hne. apply String.eqb_neq in Hne.
  induction ns as [|[k0 b0] ns IH]; cbn [ns_set ns_get].
  - now rewrite Hne.
  - destruct (String.eqb_spec k k0) as [->|Hk]; cbn [ns_get].
    + now rewrite Hne.
    + now rewrite IH.
Qed.

Lemma existsb_is_str x xs : existsb (is_str x) xs = true <-> In (VStr x) xs.
Proof.
  rewrite existsb_exists. split.
  - intros (v & Hin & Hv). destruct v; try discriminate Hv.
    cbn in Hv. apply String.eqb_eq in Hv. now subst.
  - intros Hin. exists (VStr x). split; [exact Hin|].
    cbn. apply String.eqb_refl.
Qed.

Lemma split_without (sep : ascii) (s : string) :
  str_in (String sep EmptyString) s = false ->
  MethodIndexMethods.split sep s = [s].
Proof.
  induction s as [|a s IH]; [reflexivity|].
  rewrite str_in_char_cons. cbn [MethodIndexMethods.split].
  destruct (Ascii.eqb a sep); [discriminate|].
  intros Hs. now rewrite (IH Hs).
Qed.

Lemma split_dotted (sep : ascii) (a b : string) :
  str_in (String sep EmptyString) a = false ->
  MethodIndexMethods.split sep (a ++ String sep b)
  = a :: MethodIndexMethods.split sep b.
Proof.
  induction a as [|c a IH].
  - intros _. change (("" ++ String sep b)%string) with (String sep b).
    cbn [MethodIndexMethods.split]. now rewrite Ascii.eqb_refl.
  - rewrite str_in_char_cons.
    change ((String c a ++ String sep b)%string)
      with (String c (a ++ String sep b)).
    cbn [MethodIndexMethods.split].
    destruct (Ascii.eqb c sep); [discriminate|].
    intros Ha. now rewrite (IH Ha).
Qed.

Lemma string_app_inj (a b c : string) : (a ++ b = a ++ c)%string -> b = c.
Proof.
  induction a as [|x a IH]; cbn; [easy|]. intros H. injection H. exact IH.
Qed.


Lemma dotted_inj (base n n' : string) :
  (base ++ "." ++ n = base ++ "." ++ n')%string -> n = n'.
Proof.
  intros H. apply string_app_inj in H. cbn in H. now injection H.
Qed.

Lemma loop_body_entry base name d target ns :
  ~ contains base "." -> ~ contains name "." -> name <> "__all__" ->
  assoc "method" d = Some (VStr target) -> contains target "." ->
  all_is_list ns ->
  exists ns1,
    loop_body (base ++ "." ++ name) (VDict d) ns = (Ok tt, ns1)
    /\ ns_get name ns1 = Some (call_function name d target)
    /\ (forall k, k <> name -> k <> "__all__" -> ns_get k ns1 = ns_get k ns)
    /\ (ns_get "__all__" ns = None -> ns_get "__all__" ns1 = None)
    /\ (forall xs,
          ns_get "__all__" ns = Some (Object (VList xs)) ->
          ns_get "__all__" ns1
          = Some (Object (VList (if existsb (is_str name) xs then xs
                                 else xs ++ [VStr name])))).
Proof.
  intros Hbase Hname Hall Hmethod Htarget Hns.
  unfold loop_body.
  change ((base ++ "." ++ name)%string) with ((base ++ String "." name)%string).
  rewrite split_dotted by now apply not_contains_str_in.
  rewrite split_without by now apply not_contains_str_in.
  cbn [py_getitem MethodIndexQueries.py_get_default rbind].
  rewrite Hmethod. cbn [rbind].
  rewrite (_get_call_class_dotted _ Htarget). cbn [rbind].
  fold (call_function name d target).
  assert (Hkeep : ns_get "__all__" (ns_set name (call_function name d target) ns)
                  = ns_get "__all__" ns)
    by (apply ns_get_set_ne; intros Heq; now apply Hall).
  rewrite Hkeep.
  destruct Hns as [Hnone | [xs Hxs]].
  - rewrite Hnone. eexists. split; [reflexivity|].
    repeat apply conj.
    + apply ns_get_set_eq.
    + intros k Hk _. now apply ns_get_set_ne.
    + intros _. now rewrite Hkeep.
    + intros xs Hxs. congruence.
  - rewrite Hxs. cbn [py_in].
    destruct (existsb (is_str name) xs) eqn:E.
    + eexists. split; [reflexivity|]. repeat apply conj.
      * apply ns_get_set_eq.
      * intros k Hk _. now apply ns_get_set_ne.
      * congruence.
      * intros xs' Hxs'. rewrite Hkeep.
        assert (xs' = xs) as -> by congruence. now rewrite E.
    + cbn [py_append]. eexists. split; [reflexivity|]. repeat apply conj.
      * rewrite ns_get_set_ne by congruence. apply ns_get_set_eq.
      * intros k Hk Hk'. rewrite ns_get_set_ne by congruence.
        now apply ns_get_set_ne.
      * congruence.
      * intros xs' Hxs'. rewrite ns_get_set_eq.
        assert (xs' = xs) as -> by congruence. now rewrite E.
Qed.


Lemma loop_entries base methods :
  ~ contains base "." -> Forall (index_entry base) methods ->
  forall ns, all_is_list ns ->
  exists ns',
    loop methods ns = (Ok tt, ns')
    /\ all_is_list ns'
    /\ (List.NoDup (map fst methods) ->
        forall name d target,
          In ((base ++ "." ++ name)%string, VDict d) methods ->
          assoc "method" d = Some (VStr target) ->
          ns_get name ns' = Some (call_function name d target))
    /\ (forall k, k <> "__all__" ->
          (forall v, ~ In ((base ++ "." ++ k)%string, v) methods) ->
          ns_get k ns' = ns_get k ns)
    /\ (ns_get "__all__" ns = None -> ns_get "__all__" ns' = None)
    /\ (forall xs,
          ns_get "__all__" ns = Some (Object (VList xs)) ->
          exists added,
            ns_get "__all__" ns' = Some (Object (VList (xs ++ map VStr added)))
            /\ List.NoDup added
            /\ forall n,
                 In n added
                 <-> (exists v, In ((base ++ "." ++ n)%string, v) methods)
                     /\ ~ In (VStr n) xs).
Proof.
  intros Hbase Hwf. induction Hwf as [|entry methods Hentry Hwf IH].
  - intros ns Hns. exists ns. cbn [loop]. repeat apply conj; try easy.
    intros xs Hxs. exists []. cbn [map]. rewrite app_nil_r.
    repeat apply conj; [exact Hxs | constructor | ].
    intros n. split; [intros [] | intros [[v []] _]].
  - intros ns Hns.
    destruct Hentry as (name & d & target & -> & Hname & Hall & Hmethod & Htarget).
    destruct (loop_body_entry base name d target ns Hbase Hname Hall Hmethod
                Htarget Hns)
      as (ns1 & Hstep & Hbound & Hother & Hnone & Hlist).
    assert (Hns1 : all_is_list ns1).
    { destruct Hns as [Hn | [xs Hxs]]; [left; auto | right].
      eexists. apply (Hlist _ Hxs). }
    destruct (IH ns1 Hns1) as (ns' & Hloop & Hns' & Hcalls & Hrest & Hnone' & Hlist').
    exists ns'. cbn [loop]. rewrite Hstep.
    split; [exact Hloop|]. split; [exact Hns'|].
    repeat apply conj.
    + cbn [map fst]. intros Hkeys name' d' target' Hin Hmethod'.
      apply NoDup_cons_iff in Hkeys as [Hfirst Hkeys].
      destruct Hin as [Heq | Hin].
      * injection Heq as Hkey ->.
        apply dotted_inj in Hkey as ->.
        assert (target' = target) as -> by congruence.
        rewrite Hrest; [exact Hbound | exact Hall |].
        intros v Hin. apply Hfirst.
        apply (in_map fst) in Hin. exact Hin.
      * now apply (Hcalls Hkeys name' d' target').
    + intros k Hk Hfresh.
      rewrite Hrest; [| exact Hk | intros v Hin; apply (Hfresh v); now right].
      apply Hother; [|exact Hk].
      intros ->. apply (Hfresh (VDict d)). now left.
    + intros Hn. auto.
    + intros xs Hxs. specialize (Hlist xs Hxs).
      destruct (existsb (is_str name) xs) eqn:E.
      * destruct (Hlist' xs Hlist) as (added & Hfinal & Hnodup & Hadded).
        exists added. repeat apply conj; [exact Hfinal | exact Hnodup |].
        intros n. rewrite Hadded. split.
        -- intros [[v Hin] Hnew]. split; [exists v; now right | exact Hnew].
        -- intros [[v [Heq | Hin]] Hnew]; (split; [|exact Hnew]).
           ++ injection Heq as Hkey _. apply dotted_inj in Hkey as ->.
              apply existsb_is_str in E. contradiction.
           ++ now exists v.
      * destruct (Hlist' _ Hlist) as (added & Hfinal & Hnodup & Hadded).
        assert (Hnotin : ~ In (VStr name) xs).
        { intros Hin. apply existsb_is_str in Hin. congruence. }
        exists (name :: added). repeat apply conj.
        -- rewrite Hfinal. cbn [map]. now rewrite <- app_assoc.
        -- apply NoDup_cons_iff. split; [|exact Hnodup].
           intros Hin. apply Hadded in Hin as [_ Hnew].
           apply Hnew. apply in_or_app. right. now left.
        -- intros n. cbn [In]. rewrite Hadded. split.
           ++ intros [<- | [[v Hin] Hnew]].
              ** split; [|exact Hnotin]. exists (VDict d). now left.
              ** split; [exists v; now right|].
                 intros Hin'. apply Hnew. apply in_or_app. now left.
           ++ intros [[v [Heq | Hin]] Hnew].
              ** left. injection Heq as Hkey _. now apply dotted_inj in Hkey.
              ** destruct (String.eqb_spec name n) as [->|Hne]; [now left|].
                 right. split; [now exists v|].
                 intros Hin'. apply in_app_or in Hin' as [Hin' | [Heq | []]];
                   [now apply Hnew | congruence].
Qed.


Lemma loop_app (a b : py_dict) (ns : namespace) :
  loop (a ++ b) ns
  = match loop a ns with
    | (Ok _, ns') => loop b ns'
    | (Raise e, ns') => (Raise e, ns')
    end.
Proof.
  revert ns. induction a as [|[method method_data] a IH]; intros ns.
  - reflexivity.
  - cbn [app loop].
    destruct (loop_body method method_data ns) as [[[]|e] ns1];
      [apply IH | reflexivity].
Qed.

Lemma generate_generic_calls_loop base ns index dflt self idx methods :
  index = Some self \/ (index = None /\ dflt = Some self) ->
  MethodIndexMethods._index_data self = Some (VDict idx) ->
  base <> "" ->
  assoc base idx = Some (VDict methods) ->
  generate_generic_calls base ns index dflt = loop methods ns.
Proof.
  intros Hindex Hdata Hbase Hmodule. unfold generate_generic_calls.
  assert (Hself : match index with
                  | Some index => Ok index
                  | None => MethodIndexQueries.get_default_index dflt
                  end = Ok self)
    by (destruct Hindex as [-> | [-> ->]]; reflexivity).
  rewrite Hself. cbn [rbind].
  unfold MethodIndexQueries.get_methods, MethodIndexQueries.index_data.
  destruct base as [|a base]; [congruence|].
  rewrite Hdata. cbn [rbind MethodIndexQueries.py_get_default].
  rewrite Hmodule. reflexivity.
Qed.

(** For a module of the index whose entries are filed as [generate] files
    them, under distinct keys: [generate_generic_calls] raises nothing, binds
    the name of every entry to an unbound call function for the entry's
    [method], named after the entry and documented by its description, and
    leaves every other name but [__all__] as it was. *)
Theorem generate_generic_calls_binds base ns index dflt self idx methods :
  index = Some self \/ (index = None /\ dflt = Some self) ->
  MethodIndexMethods._index_data self = Some (VDict idx) ->
  base <> "" -> ~ contains base "." ->
  assoc base idx = Some (VDict methods) ->
  Forall (index_entry base) methods ->
  List.NoDup (map fst methods) ->
  all_is_list ns ->
  fst (generate_generic_calls base ns index dflt) = Ok tt
  /\ (forall name d target,
        In ((base ++ "." ++ name)%string, VDict d) methods ->
        assoc "method" d = Some (VStr target) ->
        ns_get name (snd (generate_generic_calls base ns index dflt))
        = Some (call_function name d target))
  /\ (forall k, k <> "__all__" ->
        (forall v, ~ In ((base ++ "." ++ k)%string, v) methods) ->
        ns_get k (snd (generate_generic_calls base ns index dflt))
        = ns_get k ns).
Proof.
  intros Hindex Hdata Hbase Hdot Hmodule Hwf Hkeys Hns.
  rewrite (generate_generic_calls_loop base ns index dflt self idx methods)
    by assumption.
  destruct (loop_entries base methods Hdot Hwf ns Hns)
    as (ns' & -> & _ & Hcalls & Hrest & _).
  cbn [fst snd]. auto.
Qed.

(** Under the same conditions, whatever the keys: a namespace without
    [__all__] gets none, and a list [__all__] keeps its names in place and
    gains, once each, exactly the entry names it did not hold. *)
Theorem generate_generic_calls_all base ns index dflt self idx methods :
  index = Some self \/ (index = None /\ dflt = Some self) ->
  MethodIndexMethods._index_data self = Some (VDict idx) ->
  base <> "" -> ~ contains base "." ->
  assoc base idx = Some (VDict methods) ->
  Forall (index_entry base) methods ->
  (ns_get "__all__" ns = None ->
   ns_get "__all__" (snd (generate_generic_calls base ns index dflt)) = None)
  /\ (forall xs,
        ns_get "__all__" ns = Some (Object (VList xs)) ->
        exists added,
          ns_get "__all__" (snd (generate_generic_calls base ns index dflt))
          = Some (Object (VList (xs ++ map VStr added)))
          /\ List.NoDup added
          /\ forall n,
               In n added
               <-> (exists v, In ((base ++ "." ++ n)%string, v) methods)
                   /\ ~ In (VStr n) xs).
Proof.
  intros Hindex Hdata Hbase Hdot Hmodule Hwf.
  rewrite (generate_generic_calls_loop base ns index dflt self idx methods)
    by assumption.
  split.
  - intros Hnone.
    destruct (loop_entries base methods Hdot Hwf ns (or_introl Hnone))
      as (ns' & -> & _ & _ & _ & Hnone' & _).
    cbn [snd]. auto.
  - intros xs Hxs.
    destruct (loop_entries base methods Hdot Hwf ns
                (or_intror (ex_intro _ xs Hxs)))
      as (ns' & -> & _ & _ & _ & _ & Hlist).
    cbn [snd]. auto.
Qed.

(** The loop stops at the first key that does not split at dots into
    exactly two parts: [ValueError] comes out, the entries before it stay
    bound in the namespace. *)
Theorem generate_generic_calls_bad_key
    base ns index dflt self idx good key data rest :
  index = Some self \/ (index = None /\ dflt = Some self) ->
  MethodIndexMethods._index_data self = Some (VDict idx) ->
  base <> "" -> ~ contains base "." ->
  assoc base idx = Some (VDict (good ++ (key, data) :: rest)) ->
  Forall (index_entry base) good ->
  List.NoDup (map fst good) ->
  all_is_list ns ->
  length (MethodIndexMethods.split "." key) <> 2%nat ->
  fst (generate_generic_calls base ns index dflt) = Raise ValueError
  /\ forall name d target,
       In ((base ++ "." ++ name)%string, VDict d) good ->
       assoc "method" d = Some (VStr target) ->
       ns_get name (snd (generate_generic_calls base ns index dflt))
       = Some (call_function name d target).
Proof.
  intros Hindex Hdata Hbase Hdot Hmodule Hwf Hkeys Hns Hkey.
  rewrite (generate_generic_calls_loop base ns index dflt self idx _)
    by eassumption.
  rewrite loop_app.
  destruct (loop_entries base good Hdot Hwf ns Hns)
    as (ns' & -> & _ & Hcalls & _).
  cbn [loop]. unfold loop_body.
  destruct (MethodIndexMethods.split "." key) as [|a [|b [|c l]]];
    cbn [length] in Hkey; [| | congruence |]; cbn [fst snd]; auto.
Qed.

(** What [generate_generic_calls] does without a module to work on: with
    no index and no default one it raises [ValueError]; for a module the
    index does not hold it binds nothing and raises nothing; for the empty
    module name it walks the index itself and raises [ValueError] at a
    first key without a dot.  The namespace is untouched in the three
    cases. *)
Theorem generate_generic_calls_nothing_to_do base ns self idx :
  MethodIndexMethods._index_data self = Some (VDict idx) ->
  generate_generic_calls base ns None None = (Raise ValueError, ns)
  /\ (base <> "" -> assoc base idx = None ->
      generate_generic_calls base ns (Some self) None = (Ok tt, ns))
  /\ (forall module data others,
        idx = (module, data) :: others -> ~ contains module "." ->
        generate_generic_calls "" ns (Some self) None
        = (Raise ValueError, ns)).
Proof.
  intros Hdata. unfold generate_generic_calls. cbn [rbind].
  repeat apply conj.
  - reflexivity.
  - intros Hbase Hmodule.
    unfold MethodIndexQueries.get_methods, MethodIndexQueries.index_data.
    destruct base as [|a base]; [congruence|].
    rewrite Hdata. cbn [rbind MethodIndexQueries.py_get_default].
    rewrite Hmodule. reflexivity.
  - intros module data others -> Hmodule.
    unfold MethodIndexQueries.get_methods, MethodIndexQueries.index_data.
    rewrite Hdata. cbn [rbind loop]. unfold loop_body.
    rewrite split_without by now apply not_contains_str_in.
    reflexivity.
Qed.

End GeneratedCallFacts.

Section MethodIndexQueryFacts.
Import MethodIndexQueries.

Lemma partition_head_dotted (sep : ascii) (a b : string) :
  str_in (String sep EmptyString) a = false ->
  partition_head sep (a ++ String sep b) = a.
Proof.
  induction a as [|c a IH].
  - intros _. change (("" ++ String sep b)%string) with (String sep b).
    cbn [partition_head]. now rewrite Ascii.eqb_refl.
  - rewrite str_in_char_cons.
    change ((String c a ++ String sep b)%string)
      with (String c (a ++ String sep b)).
    cbn [partition_head].
    destruct (Ascii.eqb c sep); [discriminate|].
    intros Ha. now rewrite (IH Ha).
Qed.

(** [get_method] looks a method up where [get_methods] lists it: for a
    module of the index, [get_method] of [module.name] returns the details
    [get_methods(module)] holds under that key, and an empty dict when it
    holds none; a method whose module the index does not have gives an
    empty dict too, never a [KeyError]. *)
Theorem get_method_of_listed self idx module methods :
  MethodIndexMethods._index_data self = Some (VDict idx) ->
  module <> "" -> ~ contains module "." ->
  assoc module idx = Some (VDict methods) ->
  get_methods self (Some module) false = Ok (VDict methods)
  /\ (forall name,
        get_method self (module ++ "." ++ name)
        = Ok (default (VDict [])
                (assoc (module ++ "." ++ name)%string methods)))
  /\ (forall other name,
        ~ contains other "." -> assoc other idx = None ->
        get_method self (other ++ "." ++ name) = Ok (VDict [])).
Proof.
  intros Hdata Hmodule Hdot Hlisted. repeat apply conj.
  - unfold get_methods, index_data.
    destruct module as [|a module]; [congruence|].
    rewrite Hdata. cbn [rbind py_get_default]. now rewrite Hlisted.
  - intros name. unfold get_method, index_data.
    change ((module ++ "." ++ name)%string)
      with ((module ++ String "." name)%string).
    rewrite partition_head_dotted by now apply not_contains_str_in.
    rewrite Hdata. cbn [rbind py_get_default]. now rewrite Hlisted.
  - intros other name Hother Habsent. unfold get_method, index_data.
    change ((other ++ "." ++ name)%string)
      with ((other ++ String "." name)%string).
    rewrite partition_head_dotted by now apply not_contains_str_in.
    rewrite Hdata. cbn [rbind py_get_default]. now rewrite Habsent.
Qed.
End MethodIndexQueryFacts.

Lemma no_dot_in_client : ~ contains "client" ".".
Proof. intros H. apply str_in_contains in H. discriminate H. Qed.

Lemma client_methods_entries : Forall (index_entry "client") client_methods.
Proof.
  repeat constructor.
  - exists "get", [("method", VStr "client.get");
                   ("description", VStr "Get a Client's Details")],
      "client.get".
    repeat apply conj; try reflexivity; try discriminate.
    + intros H. apply str_in_contains in H. discriminate H.
    + now exists "client", "get".
  - exists "list", [("method", VStr "client.list")], "client.list".
    repeat apply conj; try reflexivity; try discriminate.
    + intros H. apply str_in_contains in H. discriminate H.
    + now exists "client", "list".
Qed.

Lemma client_methods_keys : List.NoDup (map fst client_methods).
Proof.
  repeat constructor; cbn; intuition discriminate.
Qed.

Lemma get_method_of_listed_witness :
  MethodIndexQueries.get_method
    (sample_index (VDict [("client", VDict client_methods)])) "client.list"
  = Ok (VDict [("method", VStr "client.list")]).
Proof.
  apply (proj1 (proj2 (get_method_of_listed
                         (sample_index (VDict [("client", VDict client_methods)]))
                         [("client", VDict client_methods)] "client"
                         client_methods eq_refl ltac:(discriminate)
                         no_dot_in_client eq_refl)) "list").
Defined.

Lemma generate_generic_calls_binds_witness :
  GeneratedCalls.ns_get "list"
    (snd (GeneratedCalls.generate_generic_calls "client" [] None
            (Some (sample_index (VDict [("client", VDict client_methods)])))))
  = Some (call_function "list" [("method", VStr "client.list")] "client.list").
Proof.
  apply (proj1 (proj2 (generate_generic_calls_binds
                         "client" [] None
                         (Some (sample_index
                                  (VDict [("client", VDict client_methods)])))
                         (sample_index
                            (VDict [("client", VDict client_methods)]))
                         [("client", VDict client_methods)] client_methods
                         (or_intror (conj eq_refl eq_refl)) eq_refl
                         ltac:(discriminate) no_dot_in_client eq_refl
                         client_methods_entries client_methods_keys
                         (or_introl eq_refl)))
           "list" [("method", VStr "client.list")] "client.list").
  - right. left. reflexivity.
  - reflexivity.
Defined.

Lemma generate_generic_calls_all_witness :
  exists added,
    GeneratedCalls.ns_get "__all__"
      (snd (GeneratedCalls.generate_generic_calls "client"
              [("__all__", GeneratedCalls.Object (VList [VStr "get"]))]
              (Some (sample_index (VDict [("client", VDict client_methods)])))
              None))
    = Some (GeneratedCalls.Object (VList ([VStr "get"] ++ map VStr added)))
    /\ List.NoDup added
    /\ forall n,
         In n added
         <-> (exists v, In (("client" ++ "." ++ n)%string, v) client_methods)
             /\ ~ In (VStr n) [VStr "get"].
Proof.
  apply (proj2 (generate_generic_calls_all
                  "client"
                  [("__all__", GeneratedCalls.Object (VList [VStr "get"]))]
                  (Some (sample_index
                           (VDict [("client", VDict client_methods)])))
                  None
                  (sample_index (VDict [("client", VDict client_methods)]))
                  [("client", VDict client_methods)] client_methods
                  (or_introl eq_refl) eq_refl
                  ltac:(discriminate) no_dot_in_client eq_refl
                  client_methods_entries)
           [VStr "get"] eq_refl).
Defined.

Lemma generate_generic_calls_bad_key_witness :
  fst (GeneratedCalls.generate_generic_calls "client" []
         (Some (sample_index
                  (VDict [("client",
                           VDict (client_methods
                                  ++ [("client.invoice.list", VDict [])]))])))
         None)
  = Raise ValueError.
Proof.
  apply (proj1 (generate_generic_calls_bad_key
                  "client" []
                  (Some (sample_index
                           (VDict [("client",
                                    VDict (client_methods
                                           ++ [("client.invoice.list",
                                                VDict [])]))])))
                  None
                  (sample_index
                     (VDict [("client",
                              VDict (client_methods
                                     ++ [("client.invoice.list", VDict [])]))]))
                  [("client",
                    VDict (client_methods
                           ++ [("client.invoice.list", VDict [])]))]
                  client_methods "client.invoice.list" (VDict []) []
                  (or_introl eq_refl) eq_refl
                  ltac:(discriminate) no_dot_in_client eq_refl
                  client_methods_entries client_methods_keys
                  (or_introl eq_refl)
                  ltac:(vm_compute; discriminate))).
Defined.

Lemma generate_generic_calls_nothing_to_do_witness :
  GeneratedCalls.generate_generic_calls "" []
    (Some (sample_index (VDict [("client", VDict client_methods)]))) None
  = (Raise ValueError, []).
Proof.
  apply (proj2 (proj2 (generate_generic_calls_nothing_to_do
                         "" []
                         (sample_index
                            (VDict [("client", VDict client_methods)]))
                         [("client", VDict client_methods)] eq_refl))
           "client" (VDict client_methods) [] eq_refl no_dot_in_client).
Defined.
